(** * flask-todo-app: the routes of [updatesss.py] and their properties

    A shallow embedding of the Flask application in [src/updatesss.py]:
    the two SQLAlchemy models ([User], [Task]), the [login_required]
    decorator and the eight view functions, followed by the properties of
    the specification that concern them.

    Modelling conventions.
    - A Python [str] is a [string] whose characters are code points below
      256; [isspace] is Python's whitespace test on that range.
    - The value returned by [request.get_json()] is a [value].
    - A table is the list of its rows in insertion order together with its
      AUTO_INCREMENT counter.  Column widths and collations belong to the
      configured backend, not to this program: a row holds the values the
      ORM was handed, and [filter_by] compares with equality.
    - The Flask session is the binding of its only key, ['user_id'].
    - A text column holds NULL or text: the flush binds the Python value
      it is handed, a number becoming its decimal text, and raises on a
      list or a dict.
    - A view that raises is answered by Flask with a 500 page; nothing has
      been committed at that point, so the store is the one before. *)

From Stdlib Require Import ZArith List String Ascii Bool Lia.
From Stdlib Require Import DecimalString.
From Stdlib Require Import Sorted Permutation.
Import ListNotations.

Set Warnings "-register-all".

Local Open Scope string_scope.
Local Open Scope Z_scope.

(** ** Python values and the builtins the views use *)

Module Py.

(** What [json.loads] builds.  A number stands for its integer case (a
    float is falsy at zero and has no [strip] either); a [dict] is the list
    of its bindings, looked up by key. *)
Inductive value : Type :=
| VNone
| VBool (b : bool)
| VInt (z : Z)
| VStr (s : string)
| VList (l : list value)
| VDict (d : list (string * value)).

Inductive exn : Type := AttributeError | KeyError | StatementError.

Inductive result (A : Type) : Type :=
| Ok (a : A)
| Raise (e : exn).

Arguments Ok {A} a.
Arguments Raise {A} e.

Definition bind {A B : Type} (m : result A) (k : A -> result B) : result B :=
  match m with
  | Ok a => k a
  | Raise e => Raise e
  end.

(** [bool(v)] *)
Definition truthy (v : value) : bool :=
  match v with
  | VNone => false
  | VBool b => b
  | VInt z => negb (z =? 0)
  | VStr s => negb (s =? "")%string
  | VList l => match l with [] => false | _ :: _ => true end
  | VDict d => match d with [] => false | _ :: _ => true end
  end.

(** [a or b] *)
Definition or_ (a b : value) : value := if truthy a then a else b.

(** [c.isspace()] for a code point below 256: TAB..CR, FS..US, SPACE,
    NEL (0x85) and NBSP (0xA0). *)
Definition isspace (c : ascii) : bool :=
  let n := N_of_ascii c in
  ((9 <=? n) && (n <=? 13) || (28 <=? n) && (n <=? 32)
   || (n =? 133) || (n =? 160))%N.

Fixpoint lstrip (s : string) : string :=
  match s with
  | EmptyString => EmptyString
  | String c r => if isspace c then lstrip r else s
  end.

Fixpoint rstrip (s : string) : string :=
  match s with
  | EmptyString => EmptyString
  | String c r =>
      match rstrip r with
      | EmptyString => if isspace c then EmptyString else String c EmptyString
      | r' => String c r'
      end
  end.

(** [s.strip()] *)
Definition strip (s : string) : string := rstrip (lstrip s).

(** [v.strip()]: only a [str] has the method. *)
Definition strip_method (v : value) : result string :=
  match v with
  | VStr s => Ok (strip s)
  | _ => Raise AttributeError
  end.

Fixpoint assoc (k : string) (d : list (string * value)) : option value :=
  match d with
  | [] => None
  | (k', v) :: r => if (k' =? k)%string then Some v else assoc k r
  end.

(** [data.get(k)]: only a [dict] has the method; a missing key gives [None]. *)
Definition get (data : value) (k : string) : result value :=
  match data with
  | VDict d => Ok (match assoc k d with Some v => v | None => VNone end)
  | _ => Raise AttributeError
  end.

(** [request.form.get(k) or ''] *)
Definition form_get_or_empty (form : list (string * string)) (k : string)
  : string :=
  match find (fun kv => (fst kv =? k)%string) form with
  | Some (_, s) => s
  | None => ""
  end.

End Py.

Import Py.

Notation "x <- m ;; k" := (Py.bind m (fun x => k))
  (at level 61, m at next level, right associativity).

(** ** Models *)

Record User : Type := mkUser {
  u_id : Z;
  username : string;
  password_hash : string;
  u_created_at : Z }.

(** [due_date] and [note] hold what their text columns hold: [VNone] for
    NULL or [VStr] for a text. *)
Record Task : Type := mkTask {
  id : Z;
  user_id : Z;
  title : string;
  due_date : value;
  note : value;
  done : bool;
  created_at : Z }.

(** The two tables with their AUTO_INCREMENT counters. *)
Record DB : Type := mkDB {
  users : list User;
  users_seq : Z;
  tasks : list Task;
  tasks_seq : Z }.

Definition empty_db : DB := mkDB [] 1 [] 1.

(** ** Requests and responses *)

Inductive method : Type := GET | POST.

Definition form : Type := list (string * string).

(** What a view reads from outside the request: [datetime.utcnow()] at
    insertion, and the random salt drawn by [generate_password_hash]. *)
Record env : Type := mkEnv { now : Z; salt : string }.

Inductive request : Type :=
| Req_register (m : method) (f : form)
| Req_login (m : method) (f : form)
| Req_logout
| Req_index
| Req_tasks
| Req_add (body : value)
| Req_delete (task_id : Z)
| Req_toggle (task_id : Z).

Inductive template : Type := LOGIN_HTML | REGISTER_HTML | APP_HTML.

Inductive context : Type :=
| ctx_error (error : option string)
| ctx_user (user : option User).

Inductive response : Type :=
| Redirect (endpoint : string)
| Render (t : template) (c : context)
| Json (status : Z) (body : value)
| InternalServerError.

Definition status_code (r : response) : Z :=
  match r with
  | Redirect _ => 302
  | Render _ _ => 200
  | Json s _ => s
  | InternalServerError => 500
  end.

(** The binding of ['user_id'] in the signed session cookie. *)
Definition session : Type := option Z.

Definition outcome : Type := (response * session * DB)%type.

Definition view : Type := session -> DB -> result outcome.

(** [session['user_id']] *)
Definition session_user_id (s : session) : result Z :=
  match s with
  | Some uid => Ok uid
  | None => Raise KeyError
  end.

(** ** Queries *)

(** [User.query.filter_by(username=name).first()] *)
Definition user_by_username (db : DB) (name : string) : option User :=
  find (fun u => (username u =? name)%string) (users db).

(** [db.session.get(User, uid)] *)
Definition user_by_id (db : DB) (uid : Z) : option User :=
  find (fun u => u_id u =? uid) (users db).

(** [Task.query.filter_by(id=task_id, user_id=user_id).first()] *)
Definition task_by_id_and_user (db : DB) (task_id uid : Z) : option Task :=
  find (fun t => (id t =? task_id) && (user_id t =? uid)) (tasks db).

Fixpoint insert_by_id_desc (t : Task) (l : list Task) : list Task :=
  match l with
  | [] => [t]
  | x :: r => if id x <=? id t then t :: l else x :: insert_by_id_desc t r
  end.

(** [ORDER BY tasks.id DESC] *)
Fixpoint order_by_id_desc (l : list Task) : list Task :=
  match l with
  | [] => []
  | t :: r => insert_by_id_desc t (order_by_id_desc r)
  end.

(** [Task.query.filter_by(user_id=uid).order_by(Task.id.desc()).all()] *)
Definition tasks_of_user (db : DB) (uid : Z) : list Task :=
  order_by_id_desc (filter (fun t => user_id t =? uid) (tasks db)).

(** ** Writes (each is one [db.session.commit()]) *)

Definition insert_user (db : DB) (name hash : string) (at_ : Z) : User * DB :=
  let u := mkUser (users_seq db) name hash at_ in
  (u, mkDB (users db ++ [u]) (users_seq db + 1) (tasks db) (tasks_seq db)).

(** [str(z)] *)
Definition decimal (z : Z) : string := NilZero.string_of_int (Z.to_int z).

(** What a [String] or [Text] column holds once the flush has bound the
    Python value [v] to it: NULL for [None], a string as it is, a number as
    its decimal text, a boolean as [1] or [0].  A list or a dict is no
    column value: the statement fails. *)
Definition text_column (v : value) : result value :=
  match v with
  | VNone => Ok VNone
  | VStr x => Ok (VStr x)
  | VInt z => Ok (VStr (decimal z))
  | VBool b => Ok (VStr (if b then "1" else "0"))
  | VList _ | VDict _ => Raise StatementError
  end.

(** The table with the row added under the next id. *)
Definition append_task (db : DB) (uid : Z) (ttl : string) (due nt : value)
    (at_ : Z) : DB :=
  let t := mkTask (tasks_seq db) uid ttl due nt false at_ in
  mkDB (users db) (users_seq db) (tasks db ++ [t]) (tasks_seq db + 1).

(** [db.session.add(Task(...)); db.session.commit()]: the row goes in with
    its two text columns bound, or the commit raises and nothing does. *)
Definition insert_task (db : DB) (uid : Z) (ttl : string) (due nt : value)
    (at_ : Z) : result DB :=
  d <- text_column due ;;
  n <- text_column nt ;;
  Ok (append_task db uid ttl d n at_).

(** [DELETE FROM tasks WHERE id = t.id] *)
Definition delete_row (db : DB) (t : Task) : DB :=
  mkDB (users db) (users_seq db)
       (filter (fun x => negb (id x =? id t)) (tasks db)) (tasks_seq db).

Definition set_done (t : Task) (d : bool) : Task :=
  mkTask (id t) (user_id t) (title t) (due_date t) (note t) d (created_at t).

(** [UPDATE tasks SET done = d WHERE id = t.id] *)
Definition update_done (db : DB) (t : Task) (d : bool) : DB :=
  mkDB (users db) (users_seq db)
       (map (fun x => if id x =? id t then set_done x d else x) (tasks db))
       (tasks_seq db).

(** ** Vocabulary of the specification *)

(** The status codes by which an HTTP response reports that the caller is
    not authorized (401 Unauthorized, 403 Forbidden), as opposed to a
    redirect. *)
Definition authorization_failure (r : response) : bool :=
  (status_code r =? 401) || (status_code r =? 403).

Definition is_digit (c : ascii) : bool :=
  let n := N_of_ascii c in ((48 <=? n) && (n <=? 57))%N.

Definition digit (c : ascii) : Z := Z.of_N (N_of_ascii c) - 48.

Definition is_leap (y : Z) : bool :=
  ((y mod 4 =? 0) && negb (y mod 100 =? 0)) || (y mod 400 =? 0).

Definition days_in_month (y m : Z) : Z :=
  if m =? 2 then (if is_leap y then 29 else 28)
  else if (m =? 4) || (m =? 6) || (m =? 9) || (m =? 11) then 30
  else 31.

(** An ISO-8601 calendar date in the form the [due_date] column documents,
    [YYYY-MM-DD]: four, two and two digits, a month of the year and a day
    of that month, and nothing after it (no time, no zone). *)
Definition iso_calendar_date (s : string) : bool :=
  match list_ascii_of_string s with
  | [y1; y2; y3; y4; d1; m1; m2; d2; a1; a2] =>
      forallb is_digit [y1; y2; y3; y4; m1; m2; a1; a2]
      && Ascii.eqb d1 "-" && Ascii.eqb d2 "-"
      && (let y := 1000 * digit y1 + 100 * digit y2 + 10 * digit y3 + digit y4 in
          let m := 10 * digit m1 + digit m2 in
          let d := 10 * digit a1 + digit a2 in
          (1 <=? m) && (m <=? 12) && (1 <=? d) && (d <=? days_in_month y m))
  | _ => false
  end.

(** [a] was created after [b]; at equal creation times, [a] has the
    larger id. *)
Definition newer (a b : Task) : Prop :=
  created_at b < created_at a
  \/ (created_at a = created_at b /\ id b < id a).

(** [a] has the smaller id. *)
Definition by_id (a b : Task) : Prop := id a < id b.

(** The task table as insertions and AUTO_INCREMENT leave it: rows by
    increasing id, every id below the counter. *)
Definition ids_ok (db : DB) : Prop :=
  StronglySorted by_id (tasks db)
  /\ Forall (fun t => id t < tasks_seq db) (tasks db).

(** [a] was inserted before [b]: a smaller id and a creation time that is
    not later. *)
Definition in_creation_order (a b : Task) : Prop :=
  id a < id b /\ created_at a <= created_at b.

(** The task table as insertions under a clock that has reached [c] leave
    it: rows in creation order, ids below the counter, times up to [c]. *)
Definition store_ok (c : Z) (db : DB) : Prop :=
  StronglySorted in_creation_order (tasks db)
  /\ Forall (fun t => id t < tasks_seq db /\ created_at t <= c) (tasks db).

Fixpoint nondecreasing_from (c : Z) (l : list Z) : bool :=
  match l with
  | [] => true
  | x :: r => (c <=? x) && nondecreasing_from x r
  end.

(** The clock readings of consecutive requests never go backwards. *)
Definition nondecreasing (l : list Z) : bool :=
  match l with
  | [] => true
  | x :: r => nondecreasing_from x r
  end.

(** The routes behind [@login_required]. *)
Definition session_required (r : request) : bool :=
  match r with
  | Req_index | Req_tasks | Req_add _ | Req_delete _ | Req_toggle _ => true
  | Req_register _ _ | Req_login _ _ | Req_logout => false
  end.

(** A request as the server meets it: the clock and salt of that moment
    and the session the client's cookie carries. *)
Record event : Type := mkEvent {
  ev_request : request;
  ev_env : env;
  ev_session : session }.

Definition clock (evs : list event) : list Z :=
  map (fun ev => now (ev_env ev)) evs.

Definition ok_response : response := Json 200 (VDict [("ok", VBool true)]).

Definition not_found_response : response :=
  Json 404 (VDict [("error", VStr "not found")]).

Definition invalid_credentials_page : response :=
  Render LOGIN_HTML (ctx_error (Some "Invalid credentials")).

Definition username_taken_page : response :=
  Render REGISTER_HTML (ctx_error (Some "Username already taken")).

(** ** Configuration *)

(** [os.environ.get(k, default)] *)
Definition getenv (environ : list (string * string)) (k default : string)
  : string :=
  match find (fun kv => (fst kv =? k)%string) environ with
  | Some (_, v) => v
  | None => default
  end.

Fixpoint skip (n : nat) (s : string) : string :=
  match n, s with
  | S n', String _ r => skip n' r
  | _, _ => s
  end.

(** [s.replace(old, new, 1)]: the leftmost occurrence, if there is one. *)
Fixpoint replace_first (old new s : string) : string :=
  if String.prefix old s then (new ++ skip (String.length old) s)%string
  else match s with
       | EmptyString => EmptyString
       | String c r => String c (replace_first old new r)
       end.

(** The module-level names the configuration block binds; [DATABASE_URL]
    is bound only inside the [if]. *)
Record config : Type := mkConfig {
  secret_key : string;
  DB_URI : string;
  DATABASE_URL : option string;
  SQLALCHEMY_DATABASE_URI : string }.

Definition configure (environ : list (string * string)) : config :=
  let key := getenv environ "FLASK_SECRET" "dev-secret-key-change-me" in
  let uri :=
    getenv environ "DATABASE_URL" "mysql+pymysql://root:@localhost/todo_db" in
  let rewritten :=
    if String.prefix "postgres://" uri
    then Some (replace_first "postgres://" "postgresql://" uri)
    else None in
  mkConfig key uri rewritten uri.

(** ** Shape of the stored rows *)

(** A non-empty array or object: the JSON values that are truthy and that
    no text column takes. *)
Definition container (v : value) : bool :=
  match v with
  | VList (_ :: _) | VDict (_ :: _) => true
  | _ => false
  end.

(** NULL, or a text that is not empty. *)
Definition null_or_text (v : value) : Prop :=
  v = VNone \/ exists x, v = VStr x /\ x <> "".

(** What is to be found in an optional text column after a request that
    carried [v] for it: nothing when [v] is missing, null, empty, zero or
    false; the string itself; a number as its decimal text; [true] as
    [1]. *)
Definition stored_text (v : value) : value :=
  match v with
  | VStr x => if (x =? "")%string then VNone else VStr x
  | VInt z => if z =? 0 then VNone else VStr (decimal z)
  | VBool true => VStr "1"
  | _ => VNone
  end.

(** A user row as [register] writes it: a username that is not empty and
    carries no surrounding whitespace, an id the counter has passed. *)
Definition user_row_ok (seq : Z) (u : User) : Prop :=
  username u <> "" /\ strip (username u) = username u
  /\ 1 <= u_id u < seq.

Definition users_ok (db : DB) : Prop :=
  1 <= users_seq db
  /\ NoDup (map username (users db))
  /\ NoDup (map u_id (users db))
  /\ Forall (user_row_ok (users_seq db)) (users db).

(** A task row as [add_task] writes it: a stripped, non-empty title,
    optional fields that are NULL or a text that is not empty, an id the
    counter has passed. *)
Definition task_row_ok (seq : Z) (t : Task) : Prop :=
  title t <> "" /\ strip (title t) = title t
  /\ null_or_text (due_date t) /\ null_or_text (note t)
  /\ 1 <= id t < seq.

Definition task_rows_ok (db : DB) : Prop :=
  1 <= tasks_seq db
  /\ Forall (task_row_ok (tasks_seq db)) (tasks db).

(** The routes that can write to each table. *)
Definition writes_users (r : request) : bool :=
  match r with
  | Req_register POST _ => true
  | _ => false
  end.

Definition writes_tasks (r : request) : bool :=
  match r with
  | Req_add _ | Req_delete _ | Req_toggle _ => true
  | _ => false
  end.

(** ** Browsers *)

(** A request as a browser sends it: which browser, what, and when. *)
Record visit : Type := mkVisit {
  who : nat;
  what : request;
  when_ : env }.

(** The session each browser's cookie holds.  The cookie is signed with
    [app.secret_key], so a browser holds what the server last gave it. *)
Definition cookies : Type := nat -> session.

Definition no_cookies : cookies := fun _ => None.

Definition set_cookie (j : cookies) (c : nat) (s : session) : cookies :=
  fun c' => if Nat.eqb c' c then s else j c'.

(** Every bound session and every task points at a stored user. *)
Definition references_ok (j : cookies) (db : DB) : Prop :=
  (forall c uid, j c = Some uid -> exists u, In u (users db) /\ u_id u = uid)
  /\ (forall t, In t (tasks db) ->
               exists u, In u (users db) /\ u_id u = user_id t).

(** ** Sample data *)

Module Sample.

(** A stand-in for werkzeug's hash, enough to run the views: the password
    followed by its salt; the check looks for the password in front. *)
Definition hash (salt password : string) : string :=
  password ++ "$" ++ salt.

Definition check (h password : string) : bool :=
  String.prefix (password ++ "$") h.

Definition iso (z : Z) : string :=
  match z with
  | 0 => "1970-01-01T00:00:00"
  | _ => "1970-01-01T00:00:01"
  end.

Definition credentials (u p : string) : form :=
  [("username", u); ("password", p)].

Definition alice : User := mkUser 1 "alice" (hash "s1" "secret123") 10.

Definition milk : Task := mkTask 1 1 "Buy milk" VNone VNone false 20.

Definition bread : Task := mkTask 2 2 "Bake bread" (VStr "2026-01-31") VNone true 30.

Definition bob : User := mkUser 2 "bob" (hash "s2" "hunter2") 15.

(** alice owns task 1, bob owns task 2. *)
Definition db1 : DB := mkDB [alice; bob] 3 [milk; bread] 3.

Definition at_ (n : Z) : env := mkEnv n "salt".

Definition titled (ttl : string) : value := VDict [("title", VStr ttl)].

(** alice registers and adds two tasks, bob registers and adds one, alice
    ticks her first task off. *)
Definition day : list event :=
  [ mkEvent (Req_register POST (credentials "alice" "secret123")) (at_ 10) None;
    mkEvent (Req_add (titled "Buy milk")) (at_ 20) (Some 1);
    mkEvent (Req_add (titled "Walk dog")) (at_ 20) (Some 1);
    mkEvent (Req_register POST (credentials "bob" "hunter2")) (at_ 25) None;
    mkEvent (Req_add (titled "Bake bread")) (at_ 30) (Some 2);
    mkEvent (Req_toggle 1) (at_ 40) (Some 1) ].

(** The same day seen from two browsers, each holding its own cookie. *)
Definition visits : list visit :=
  [ mkVisit 0 (Req_register POST (credentials "alice" "secret123")) (at_ 10);
    mkVisit 0 (Req_add (titled "Buy milk")) (at_ 20);
    mkVisit 1 (Req_add (titled "Walk dog")) (at_ 20);
    mkVisit 1 (Req_register POST (credentials "bob" "hunter2")) (at_ 25);
    mkVisit 1 (Req_add (titled "Bake bread")) (at_ 30);
    mkVisit 0 (Req_logout) (at_ 40) ].

Definition heroku : list (string * string) :=
  [("DATABASE_URL", "postgres://app@db.example/todo")].

(** A request body whose [due_date] is not a date. *)
Definition vague : value :=
  VDict [("title", VStr "Call mum"); ("due_date", VStr "tomorrow")].

End Sample.

(** ** The application *)

Section App.

(** [werkzeug.security]: the hash of a password under a salt, and its check. *)
Variable generate_password_hash : string -> string -> string.
Variable check_password_hash : string -> string -> bool.

(** [datetime.isoformat] *)
Variable isoformat : Z -> string.

(** [User.set_password] followed by the insertion of the row. *)
Definition new_user (db : DB) (e : env) (name password : string) : User * DB :=
  insert_user db name (generate_password_hash (salt e) password) (now e).

(** [User.check_password] *)
Definition check_password (u : User) (password : string) : bool :=
  check_password_hash (password_hash u) password.

Definition login_required (fn : view) : view :=
  fun s db =>
    match s with
    | None => Ok (Redirect "login", s, db)
    | Some _ => fn s db
    end.

Definition register (m : method) (f : form) (e : env) : view :=
  fun s db =>
    match m with
    | POST =>
        let name := strip (form_get_or_empty f "username") in
        let password := form_get_or_empty f "password" in
        if (name =? "")%string || (password =? "")%string then
          Ok (Render REGISTER_HTML
                (ctx_error (Some "Enter username and password")), s, db)
        else
          match user_by_username db name with
          | Some _ =>
              Ok (Render REGISTER_HTML
                    (ctx_error (Some "Username already taken")), s, db)
          | None =>
              let (u, db') := new_user db e name password in
              Ok (Redirect "index", Some (u_id u), db')
          end
    | GET => Ok (Render REGISTER_HTML (ctx_error None), s, db)
    end.

Definition login (m : method) (f : form) : view :=
  fun s db =>
    match m with
    | POST =>
        let name := strip (form_get_or_empty f "username") in
        let password := form_get_or_empty f "password" in
        match user_by_username db name with
        | Some user =>
            if check_password user password then
              Ok (Redirect "index", Some (u_id user), db)
            else
              Ok (Render LOGIN_HTML
                    (ctx_error (Some "Invalid credentials")), s, db)
        | None =>
            Ok (Render LOGIN_HTML
                  (ctx_error (Some "Invalid credentials")), s, db)
        end
    | GET => Ok (Render LOGIN_HTML (ctx_error None), s, db)
    end.

Definition logout : view :=
  fun _ db => Ok (Redirect "login", None, db).

Definition index : view :=
  login_required (fun s db =>
    uid <- session_user_id s ;;
    Ok (Render APP_HTML (ctx_user (user_by_id db uid)), s, db)).

Definition task_json (t : Task) : value :=
  VDict [("id", VInt (id t)); ("title", VStr (title t));
         ("due_date", due_date t); ("note", note t);
         ("done", VBool (done t));
         ("created_at", VStr (isoformat (created_at t)))].

Definition tasks_api : view :=
  login_required (fun s db =>
    uid <- session_user_id s ;;
    Ok (Json 200 (VList (map task_json (tasks_of_user db uid))), s, db)).

Definition add_task (body : value) (e : env) : view :=
  login_required (fun s db =>
    let data := or_ body (VDict []) in
    v <- get data "title" ;;
    ttl <- strip_method (or_ v (VStr "")) ;;
    if (ttl =? "")%string then
      Ok (Json 400 (VDict [("error", VStr "empty")]), s, db)
    else
      d <- get data "due_date" ;;
      let due := or_ d VNone in
      n <- get data "note" ;;
      let nt := or_ n VNone in
      uid <- session_user_id s ;;
      db' <- insert_task db uid ttl due nt (now e) ;;
      Ok (Json 200 (VDict [("ok", VBool true)]), s, db')).

Definition delete_task (task_id : Z) : view :=
  login_required (fun s db =>
    uid <- session_user_id s ;;
    match task_by_id_and_user db task_id uid with
    | None => Ok (Json 404 (VDict [("error", VStr "not found")]), s, db)
    | Some t => Ok (Json 200 (VDict [("ok", VBool true)]), s, delete_row db t)
    end).

Definition toggle_task (task_id : Z) : view :=
  login_required (fun s db =>
    uid <- session_user_id s ;;
    match task_by_id_and_user db task_id uid with
    | None => Ok (Json 404 (VDict [("error", VStr "not found")]), s, db)
    | Some t =>
        Ok (Json 200 (VDict [("ok", VBool true)]), s,
            update_done db t (negb (done t)))
    end).

(** Flask's answer to a view: its result, or the 500 page when it raised. *)
Definition respond (v : view) (s : session) (db : DB) : outcome :=
  match v s db with
  | Ok o => o
  | Raise _ => (InternalServerError, s, db)
  end.

(** The URL map. *)
Definition route (r : request) (e : env) : view :=
  match r with
  | Req_register m f => register m f e
  | Req_login m f => login m f
  | Req_logout => logout
  | Req_index => index
  | Req_tasks => tasks_api
  | Req_add body => add_task body e
  | Req_delete task_id => delete_task task_id
  | Req_toggle task_id => toggle_task task_id
  end.

Definition handle (r : request) (e : env) (s : session) (db : DB) : outcome :=
  respond (route r e) s db.

Definition response_of (o : outcome) : response := fst (fst o).
Definition session_of (o : outcome) : session := snd (fst o).
Definition db_of (o : outcome) : DB := snd o.

(** The store after serving the events in order. *)
Fixpoint run (db : DB) (evs : list event) : DB :=
  match evs with
  | [] => db
  | ev :: r =>
      run (db_of (handle (ev_request ev) (ev_env ev) (ev_session ev) db)) r
  end.

(** [d.get(k)] on the parsed JSON object [d]. *)
Definition field (d : list (string * value)) (k : string) : value :=
  match assoc k d with
  | Some v => v
  | None => VNone
  end.

(** The credentials [register] and [login] read from the form. *)
Definition typed_username (f : form) : string :=
  strip (form_get_or_empty f "username").

Definition typed_password (f : form) : string :=
  form_get_or_empty f "password".

(** The browsers and the store after the visits, each answered under the
    cookie its browser holds and leaving there the session it returns. *)
Fixpoint browse (j : cookies) (db : DB) (vs : list visit) : cookies * DB :=
  match vs with
  | [] => (j, db)
  | v :: r =>
      let o := handle (what v) (when_ v) (j (who v)) db in
      browse (set_cookie j (who v) (session_of o)) (db_of o) r
  end.

(** The writes of the application, each with the conditions under which
    the view reaches it. *)
Inductive effect (r : request) (e : env) (s : session) (db : DB)
  : DB -> Prop :=
| eff_none : effect r e s db db
| eff_register (f : form) :
    r = Req_register POST f ->
    typed_username f <> "" ->
    typed_password f <> "" ->
    user_by_username db (typed_username f) = None ->
    effect r e s db
      (snd (new_user db e (typed_username f) (typed_password f)))
| eff_add (body : value) (uid : Z) (ttl : string) (due nt : value) :
    r = Req_add body ->
    s = Some uid ->
    ttl <> "" ->
    strip ttl = ttl ->
    null_or_text due ->
    null_or_text nt ->
    effect r e s db (append_task db uid ttl due nt (now e))
| eff_delete (task_id uid : Z) (t : Task) :
    r = Req_delete task_id ->
    s = Some uid ->
    task_by_id_and_user db task_id uid = Some t ->
    effect r e s db (delete_row db t)
| eff_toggle (task_id uid : Z) (t : Task) :
    r = Req_toggle task_id ->
    s = Some uid ->
    task_by_id_and_user db task_id uid = Some t ->
    effect r e s db (update_done db t (negb (done t))).

(** Everything of a task but [done]. *)
Definition frozen (t : Task) : Z * Z * string * value * value * Z :=
  (id t, user_id t, title t, due_date t, note t, created_at t).

(** ** Session gate *)

Lemma login_required_no_session (fn : view) (db : DB) :
  login_required fn None db = Ok (Redirect "login", None, db).
Proof. reflexivity. Qed.

(** C1 (as the code has it): a request to a session-required route, page or
    API alike, that carries no session user id is answered with a redirect
    to the login page and leaves session and store as they were; the
    decorated view is not run, whatever it is. *)
Theorem no_session_redirects_to_login (r : request) (e : env) (db : DB) :
  session_required r = true ->
  handle r e None db = (Redirect "login", None, db)
  /\ (forall fn : view,
        respond (login_required fn) None db = (Redirect "login", None, db)).
Proof.
  intros Hr; split; [| reflexivity].
  destruct r; simpl in Hr; try discriminate; reflexivity.
Qed.

(** ** Toggle and delete *)

Lemma find_map_stable {A : Type} (p : A -> bool) (f : A -> A) (l : list A) :
  (forall x, p (f x) = p x) ->
  find p (map f l) = option_map f (find p l).
Proof.
  intros Hp; induction l as [| a l IH]; simpl; [reflexivity |].
  rewrite Hp; destruct (p a); [reflexivity | exact IH].
Qed.

Lemma task_by_id_and_user_sound (db : DB) (task_id uid : Z) (t : Task) :
  task_by_id_and_user db task_id uid = Some t ->
  In t (tasks db) /\ id t = task_id /\ user_id t = uid.
Proof.
  unfold task_by_id_and_user; intros H.
  apply find_some in H; destruct H as [Hin Hp].
  apply andb_true_iff in Hp; destruct Hp as [H1 H2].
  apply Z.eqb_eq in H1; apply Z.eqb_eq in H2; auto.
Qed.

(** No row carries both the id and the owner exactly when the lookup that
    [toggle_task] and [delete_task] start with finds nothing. *)
Lemma task_by_id_and_user_none (db : DB) (task_id uid : Z) :
  task_by_id_and_user db task_id uid = None <->
  (forall t, In t (tasks db) -> ~ (id t = task_id /\ user_id t = uid)).
Proof.
  unfold task_by_id_and_user; split.
  - intros H t Hin [H1 H2].
    apply (find_none _ _ H) in Hin.
    rewrite H1, H2, !Z.eqb_refl in Hin; discriminate.
  - intros H.
    destruct (find _ (tasks db)) as [t |] eqn:Hf; [| reflexivity].
    apply find_some in Hf; destruct Hf as [Hin Hp].
    apply andb_true_iff in Hp; destruct Hp as [H1 H2].
    apply Z.eqb_eq in H1; apply Z.eqb_eq in H2.
    exfalso; exact (H t Hin (conj H1 H2)).
Qed.

(** C3: when no task has the given id and the caller as owner, be it that
    the id is unknown or that its task belongs to someone else, both
    [toggle] and [delete] answer 404 with [{"error": "not found"}] and the
    store is the one before. *)
Theorem toggle_delete_not_found (db : DB) (uid task_id : Z) (e : env) :
  (forall t, In t (tasks db) -> ~ (id t = task_id /\ user_id t = uid)) ->
  handle (Req_toggle task_id) e (Some uid) db
    = (not_found_response, Some uid, db)
  /\ handle (Req_delete task_id) e (Some uid) db
    = (not_found_response, Some uid, db)
  /\ status_code not_found_response = 404.
Proof.
  intros H; apply task_by_id_and_user_none in H.
  unfold handle, respond; simpl.
  unfold toggle_task, delete_task, login_required; simpl.
  rewrite H; repeat split.
Qed.

Lemma update_done_lookup (db : DB) (task_id uid : Z) (t : Task) (d : bool) :
  task_by_id_and_user db task_id uid = Some t ->
  task_by_id_and_user (update_done db t d) task_id uid
    = Some (set_done t d).
Proof.
  intros H; unfold task_by_id_and_user, update_done; simpl.
  rewrite find_map_stable.
  - unfold task_by_id_and_user in H; rewrite H; simpl.
    rewrite Z.eqb_refl; reflexivity.
  - intros x; destruct (id x =? id t); reflexivity.
Qed.

Lemma toggle_found (db : DB) (uid task_id : Z) (t : Task) (e : env) :
  task_by_id_and_user db task_id uid = Some t ->
  handle (Req_toggle task_id) e (Some uid) db
    = (ok_response, Some uid, update_done db t (negb (done t))).
Proof.
  intros H; unfold handle, respond; simpl.
  unfold toggle_task, login_required; simpl.
  rewrite H; reflexivity.
Qed.

Lemma delete_found (db : DB) (uid task_id : Z) (t : Task) (e : env) :
  task_by_id_and_user db task_id uid = Some t ->
  handle (Req_delete task_id) e (Some uid) db
    = (ok_response, Some uid, delete_row db t).
Proof.
  intros H; unfold handle, respond; simpl.
  unfold delete_task, login_required; simpl.
  rewrite H; reflexivity.
Qed.

(** C6: for a task the caller owns, two toggles of its id both succeed, the
    first shows [done] flipped and the second shows the task exactly as it
    was, [done] included. *)
Theorem toggle_twice_restores_done
    (db : DB) (uid task_id : Z) (t : Task) (e1 e2 : env) :
  task_by_id_and_user db task_id uid = Some t ->
  let o1 := handle (Req_toggle task_id) e1 (Some uid) db in
  let o2 := handle (Req_toggle task_id) e2 (Some uid) (db_of o1) in
  response_of o1 = ok_response
  /\ response_of o2 = ok_response
  /\ option_map done (task_by_id_and_user (db_of o1) task_id uid)
      = Some (negb (done t))
  /\ task_by_id_and_user (db_of o2) task_id uid = Some t.
Proof.
  intros H o1 o2.
  pose proof (update_done_lookup db task_id uid t (negb (done t)) H) as H1.
  assert (E1 : o1 = (ok_response, Some uid, update_done db t (negb (done t))))
    by (apply toggle_found; exact H).
  set (t1 := set_done t (negb (done t))) in *.
  assert (E2 : o2 = (ok_response, Some uid,
                     update_done (db_of o1) t1 (negb (done t1)))).
  { subst o2; rewrite E1; unfold db_of; cbn [snd].
    apply (toggle_found _ _ _ _ e2 H1). }
  rewrite E2, E1; unfold response_of, db_of; cbn [fst snd].
  repeat split.
  - rewrite H1; reflexivity.
  - rewrite (update_done_lookup _ task_id uid _ _ H1).
    subst t1; unfold set_done; simpl.
    rewrite negb_involutive; destruct t; reflexivity.
Qed.

(** ** Add *)

Lemma or_dict_with_key (d : list (string * value)) (k : string) (v : value) :
  assoc k d = Some v -> or_ (VDict d) (VDict []) = VDict d.
Proof. destruct d; [discriminate | reflexivity]. Qed.

Lemma or_none_not_empty_string (v : value) : or_ v VNone <> VStr "".
Proof.
  unfold or_; destruct (truthy v) eqn:Hv; [| discriminate].
  intros ->; discriminate.
Qed.

(** C7: whoever the caller, a title that is empty once its surrounding
    whitespace is stripped makes [add] answer 400 with an error payload,
    and the store is the one before: no row is created. *)
Theorem add_blank_title_rejected
    (db : DB) (uid : Z) (e : env) (d : list (string * value)) (ttl : string) :
  assoc "title" d = Some (VStr ttl) ->
  strip ttl = "" ->
  handle (Req_add (VDict d)) e (Some uid) db
    = (Json 400 (VDict [("error", VStr "empty")]), Some uid, db).
Proof.
  intros Hd Hs.
  unfold handle, respond; simpl.
  unfold add_task, login_required.
  rewrite (or_dict_with_key _ _ _ Hd); simpl.
  rewrite Hd; unfold or_; simpl.
  destruct (ttl =? "")%string eqn:He; simpl.
  - reflexivity.
  - rewrite Hs; reflexivity.
Qed.

Lemma decimal_not_empty (z : Z) : decimal z <> "".
Proof.
  unfold decimal; destruct (Z.to_int z) as [d | d]; simpl;
    [destruct d |]; discriminate.
Qed.

(** What [x or None] leaves in its column is NULL or a non-empty text. *)
Lemma text_column_written (v c : value) :
  text_column (or_ v VNone) = Ok c -> null_or_text c.
Proof.
  unfold or_; destruct v as [| b | z | x | l | l]; simpl.
  - intros H; injection H as <-; left; reflexivity.
  - destruct b; simpl; intros H; injection H as <-;
      [right; exists "1"; split; [reflexivity | discriminate]
      | left; reflexivity].
  - destruct (z =? 0); simpl; intros H; injection H as <-;
      [left; reflexivity |].
    right; exists (decimal z); split; [reflexivity | apply decimal_not_empty].
  - destruct (String.eqb_spec x ""); simpl; intros H; injection H as <-;
      [left; reflexivity |].
    right; exists x; split; [reflexivity | assumption].
  - destruct l; simpl; [| discriminate].
    intros H; injection H as <-; left; reflexivity.
  - destruct l; simpl; [| discriminate].
    intros H; injection H as <-; left; reflexivity.
Qed.

Lemma written_stored (v : value) :
  container v = false -> text_column (or_ v VNone) = Ok (stored_text v).
Proof.
  unfold or_; destruct v as [| b | z | x | l | l]; simpl; intros H.
  - reflexivity.
  - destruct b; reflexivity.
  - destruct (z =? 0); reflexivity.
  - destruct (x =? "")%string; reflexivity.
  - destruct l; [reflexivity | discriminate].
  - destruct l; [reflexivity | discriminate].
Qed.



(** [add] up to the commit, for a body with a usable title. *)
Lemma add_task_commit
    (db : DB) (uid : Z) (e : env) (d : list (string * value)) (ttl : string) :
  assoc "title" d = Some (VStr ttl) ->
  strip ttl <> "" ->
  handle (Req_add (VDict d)) e (Some uid) db
  = match insert_task db uid (strip ttl) (or_ (field d "due_date") VNone)
                      (or_ (field d "note") VNone) (now e) with
    | Ok db' => (ok_response, Some uid, db')
    | Raise _ => (InternalServerError, Some uid, db)
    end.
Proof.
  intros Hd Hs.
  unfold handle, respond; simpl.
  unfold add_task, login_required.
  rewrite (or_dict_with_key _ _ _ Hd); simpl.
  rewrite Hd; unfold or_ at 1; simpl.
  destruct (ttl =? "")%string eqn:He; simpl.
  - apply String.eqb_eq in He; subst ttl; exfalso; apply Hs; reflexivity.
  - apply String.eqb_neq in Hs; rewrite Hs; simpl.
    fold (field d "due_date"); fold (field d "note").
    destruct (insert_task _ _ _ _ _ _); reflexivity.
Qed.

Lemma add_task_ok
    (db : DB) (uid : Z) (e : env) (d : list (string * value)) (ttl : string) :
  assoc "title" d = Some (VStr ttl) ->
  strip ttl <> "" ->
  container (field d "due_date") = false ->
  container (field d "note") = false ->
  handle (Req_add (VDict d)) e (Some uid) db
    = (ok_response, Some uid,
       append_task db uid (strip ttl) (stored_text (field d "due_date"))
                   (stored_text (field d "note")) (now e)).
Proof.
  intros Hd Hs H1 H2.
  rewrite (add_task_commit db uid e d ttl Hd Hs); unfold insert_task.
  rewrite (written_stored _ H1), (written_stored _ H2); reflexivity.
Qed.



(** ** Register and login *)

Lemma register_ok (db : DB) (f : form) (e : env) (s : session) :
  typed_username f <> "" ->
  typed_password f <> "" ->
  user_by_username db (typed_username f) = None ->
  handle (Req_register POST f) e s db
    = (Redirect "index", Some (users_seq db),
       snd (new_user db e (typed_username f) (typed_password f))).
Proof.
  unfold typed_username, typed_password; intros Hu Hp Hfree.
  unfold handle, respond; simpl.
  apply String.eqb_neq in Hu; apply String.eqb_neq in Hp.
  rewrite Hu, Hp, Hfree; reflexivity.
Qed.

Lemma register_taken (db : DB) (f : form) (e : env) (s : session) (u : User) :
  typed_username f <> "" ->
  typed_password f <> "" ->
  user_by_username db (typed_username f) = Some u ->
  handle (Req_register POST f) e s db = (username_taken_page, s, db).
Proof.
  unfold typed_username, typed_password; intros Hn Hp Hu.
  unfold handle, respond; simpl.
  apply String.eqb_neq in Hn; apply String.eqb_neq in Hp.
  rewrite Hn, Hp, Hu; reflexivity.
Qed.

Lemma login_ok (db : DB) (f : form) (e : env) (s : session) (u : User) :
  user_by_username db (typed_username f) = Some u ->
  check_password u (typed_password f) = true ->
  handle (Req_login POST f) e s db = (Redirect "index", Some (u_id u), db).
Proof.
  unfold typed_username, typed_password; intros Hu Hc.
  unfold handle, respond; simpl.
  rewrite Hu, Hc; reflexivity.
Qed.

Lemma login_unknown_user (db : DB) (f : form) (e : env) (s : session) :
  user_by_username db (typed_username f) = None ->
  handle (Req_login POST f) e s db = (invalid_credentials_page, s, db).
Proof.
  unfold typed_username; intros Hu.
  unfold handle, respond; simpl.
  rewrite Hu; reflexivity.
Qed.

Lemma login_wrong_password
    (db : DB) (f : form) (e : env) (s : session) (u : User) :
  user_by_username db (typed_username f) = Some u ->
  check_password u (typed_password f) = false ->
  handle (Req_login POST f) e s db = (invalid_credentials_page, s, db).
Proof.
  unfold typed_username, typed_password; intros Hu Hc.
  unfold handle, respond; simpl.
  rewrite Hu, Hc; reflexivity.
Qed.

(** C5: a login that fails because no user has the username and a login
    that fails because the hash check rejects the password get the same
    response, the login page with [Invalid credentials]; each leaves
    session and store untouched. *)
Theorem login_failures_indistinguishable
    (db : DB) (f1 f2 : form) (e1 e2 : env) (s : session) (u : User) :
  user_by_username db (typed_username f1) = None ->
  user_by_username db (typed_username f2) = Some u ->
  check_password u (typed_password f2) = false ->
  let o1 := handle (Req_login POST f1) e1 s db in
  let o2 := handle (Req_login POST f2) e2 s db in
  o1 = o2
  /\ response_of o1 = invalid_credentials_page
  /\ session_of o1 = s
  /\ db_of o1 = db.
Proof.
  intros H1 H2 Hc o1 o2; subst o1 o2.
  rewrite (login_unknown_user db f1 e1 s H1).
  rewrite (login_wrong_password db f2 e2 s u H2 Hc).
  repeat split.
Qed.

Lemma find_app_fresh {A : Type} (p : A -> bool) (l : list A) (x : A) :
  find p l = None ->
  find p (l ++ [x]) = if p x then Some x else None.
Proof.
  induction l as [| a l IH]; simpl; [reflexivity |].
  destruct (p a); [discriminate | exact IH].
Qed.

Lemma new_user_lookup (db : DB) (e : env) (name password : string) :
  user_by_username db name = None ->
  user_by_username (snd (new_user db e name password)) name
    = Some (fst (new_user db e name password)).
Proof.
  intros H; unfold user_by_username, new_user, insert_user; simpl.
  rewrite (find_app_fresh _ _ _ H); simpl.
  rewrite String.eqb_refl; reflexivity.
Qed.

Hypothesis check_generate :
  forall salt password,
    check_password_hash (generate_password_hash salt password) password = true.

Lemma register_then_login (db : DB) (f : form) (e e' : env) (s s' : session) :
  typed_username f <> "" ->
  typed_password f <> "" ->
  user_by_username db (typed_username f) = None ->
  let db' := db_of (handle (Req_register POST f) e s db) in
  handle (Req_login POST f) e' s' db'
    = (Redirect "index", Some (users_seq db), db').
Proof.
  intros Hu Hp Hfree db'; subst db'.
  rewrite (register_ok db f e s Hu Hp Hfree); unfold db_of; cbn [snd].
  rewrite (login_ok _ f e' s'
             (fst (new_user db e (typed_username f) (typed_password f)))).
  - reflexivity.
  - apply new_user_lookup; exact Hfree.
  - unfold check_password, new_user, insert_user; simpl.
    apply check_generate.
Qed.

(** C4: for a username that is non-empty once stripped and not yet in use,
    and a non-empty password, [register] succeeds and opens a session for
    the new user; a login with the same credentials then succeeds as that
    user; and a further [register] under the same username, with whatever
    non-empty password, is refused with [Username already taken] and
    changes nothing. *)
Theorem register_then_verify_then_duplicate
    (db : DB) (f : form) (e : env) (s : session) :
  typed_username f <> "" ->
  typed_password f <> "" ->
  user_by_username db (typed_username f) = None ->
  let o1 := handle (Req_register POST f) e s db in
  response_of o1 = Redirect "index"
  /\ session_of o1 = Some (users_seq db)
  /\ (forall e' s',
        handle (Req_login POST f) e' s' (db_of o1)
          = (Redirect "index", Some (users_seq db), db_of o1))
  /\ (forall f2 e2 s2,
        typed_username f2 = typed_username f ->
        typed_password f2 <> "" ->
        handle (Req_register POST f2) e2 s2 (db_of o1)
          = (username_taken_page, s2, db_of o1)).
Proof.
  intros Hu Hp Hfree o1.
  assert (E1 : o1 = (Redirect "index", Some (users_seq db),
                     snd (new_user db e (typed_username f) (typed_password f))))
    by (apply register_ok; assumption).
  split; [rewrite E1; reflexivity |].
  split; [rewrite E1; reflexivity |].
  split.
  - intros e' s'; subst o1.
    apply (register_then_login db f e e' s s' Hu Hp Hfree).
  - intros f2 e2 s2 Hsame Hp2.
    rewrite E1; unfold db_of; cbn [snd].
    eapply register_taken.
    + rewrite Hsame; exact Hu.
    + exact Hp2.
    + rewrite Hsame; apply new_user_lookup; exact Hfree.
Qed.

(** C10: only the username is stripped.  For a username that is non-empty
    once stripped and not yet in use, a password made of nothing but
    whitespace is accepted by [register], hashed as typed, and a login with
    that same whitespace password succeeds. *)
Theorem whitespace_password_accepted
    (db : DB) (f : form) (e : env) (s : session) :
  typed_username f <> "" ->
  user_by_username db (typed_username f) = None ->
  typed_password f <> "" ->
  strip (typed_password f) = "" ->
  let o1 := handle (Req_register POST f) e s db in
  response_of o1 = Redirect "index"
  /\ (exists u,
        user_by_username (db_of o1) (typed_username f) = Some u
        /\ password_hash u
           = generate_password_hash (salt e) (typed_password f))
  /\ (forall e' s',
        handle (Req_login POST f) e' s' (db_of o1)
          = (Redirect "index", Some (users_seq db), db_of o1)).
Proof.
  intros Hu Hfree Hp _ o1.
  assert (E1 : o1 = (Redirect "index", Some (users_seq db),
                     snd (new_user db e (typed_username f) (typed_password f))))
    by (apply register_ok; assumption).
  split; [rewrite E1; reflexivity |].
  split.
  - rewrite E1; unfold db_of; cbn [snd].
    eexists; split; [apply new_user_lookup; exact Hfree | reflexivity].
  - intros e' s'; subst o1.
    apply (register_then_login db f e e' s s' Hu Hp Hfree).
Qed.

(** ** List *)

Lemma insert_by_id_desc_perm (t : Task) (l : list Task) :
  Permutation (insert_by_id_desc t l) (t :: l).
Proof.
  induction l as [| x r IH]; simpl; [reflexivity |].
  destruct (id x <=? id t); [reflexivity |].
  rewrite IH; apply perm_swap.
Qed.

Lemma order_by_id_desc_perm (l : list Task) :
  Permutation (order_by_id_desc l) l.
Proof.
  induction l as [| t r IH]; simpl; [reflexivity |].
  rewrite insert_by_id_desc_perm; constructor; exact IH.
Qed.

Lemma insert_by_id_desc_sorted (t : Task) (l : list Task) :
  StronglySorted (fun a b => id b <= id a) l ->
  StronglySorted (fun a b => id b <= id a) (insert_by_id_desc t l).
Proof.
  induction 1 as [| x r Hr IH Hx]; simpl.
  - repeat constructor.
  - destruct (id x <=? id t) eqn:E.
    + apply Z.leb_le in E.
      constructor; [constructor; assumption |].
      constructor; [exact E |].
      eapply Forall_impl; [| exact Hx]; simpl; intros; lia.
    + apply Z.leb_gt in E.
      constructor; [exact IH |].
      eapply Permutation_Forall;
        [symmetry; apply insert_by_id_desc_perm |].
      constructor; [lia | exact Hx].
Qed.

(** Whatever the store, the rows come out by descending id. *)
Lemma order_by_id_desc_sorted (l : list Task) :
  StronglySorted (fun a b => id b <= id a) (order_by_id_desc l).
Proof.
  induction l as [| t r IH]; simpl; [constructor |].
  apply insert_by_id_desc_sorted; exact IH.
Qed.

(** Whatever the store, the rows are the caller's and all of them. *)
Lemma tasks_of_user_scoped (db : DB) (uid : Z) :
  Permutation (tasks_of_user db uid)
              (filter (fun t => user_id t =? uid) (tasks db))
  /\ (forall t, In t (tasks_of_user db uid)
                <-> In t (tasks db) /\ user_id t = uid).
Proof.
  pose proof (order_by_id_desc_perm
                (filter (fun t => user_id t =? uid) (tasks db))) as P.
  split; [exact P |].
  intros t; unfold tasks_of_user; split.
  - intros H; apply (Permutation_in _ P) in H.
    apply filter_In in H; destruct H as [H1 H2].
    apply Z.eqb_eq in H2; auto.
  - intros [H1 H2]; apply (Permutation_in _ (Permutation_sym P)).
    apply filter_In; split; [exact H1 | apply Z.eqb_eq; exact H2].
Qed.

Lemma insert_by_id_desc_last (t : Task) (l : list Task) :
  Forall (fun x => id t < id x) l ->
  insert_by_id_desc t l = (l ++ [t])%list.
Proof.
  induction 1 as [| x r Hx _ IH]; simpl; [reflexivity |].
  apply Z.leb_gt in Hx; rewrite Hx, IH; reflexivity.
Qed.

(** On rows kept by increasing id, [ORDER BY id DESC] is reversal. *)
Lemma order_by_id_desc_rev (l : list Task) :
  StronglySorted by_id l ->
  order_by_id_desc l = rev l.
Proof.
  induction 1 as [| a r _ IH Ha]; simpl; [reflexivity |].
  rewrite IH; apply insert_by_id_desc_last.
  apply Forall_rev; exact Ha.
Qed.

Section Orders.

Context {A : Type}.

Lemma StronglySorted_snoc (R : A -> A -> Prop) (l : list A) (x : A) :
  StronglySorted R l ->
  Forall (fun y => R y x) l ->
  StronglySorted R (l ++ [x]).
Proof.
  induction 1 as [| a r Hr IH Ha]; simpl; intros Hx.
  - repeat constructor.
  - inversion Hx; subst.
    constructor; [apply IH; assumption |].
    apply Forall_app; split; [exact Ha | repeat constructor; assumption].
Qed.

(** Reversal turns an order into its converse. *)
Lemma StronglySorted_rev (R R' : A -> A -> Prop) (l : list A) :
  (forall a b, R a b -> R' b a) ->
  StronglySorted R l ->
  StronglySorted R' (rev l).
Proof.
  intros HR; induction 1 as [| a r _ IH Ha]; simpl; [constructor |].
  apply StronglySorted_snoc; [exact IH |].
  apply Forall_rev; eapply Forall_impl; [| exact Ha].
  intros x Hx; apply HR; exact Hx.
Qed.

Lemma StronglySorted_filter (R : A -> A -> Prop) (p : A -> bool) (l : list A) :
  StronglySorted R l ->
  StronglySorted R (filter p l).
Proof.
  induction 1 as [| a r _ IH Ha]; simpl; [constructor |].
  destruct (p a); [| exact IH].
  constructor; [exact IH |].
  apply Forall_forall; intros x Hx.
  apply filter_In in Hx; destruct Hx as [Hx _].
  exact (proj1 (Forall_forall _ _) Ha x Hx).
Qed.

Lemma StronglySorted_map (R : A -> A -> Prop) (f : A -> A) (l : list A) :
  (forall a b, R a b -> R (f a) (f b)) ->
  StronglySorted R l ->
  StronglySorted R (map f l).
Proof.
  intros Hf; induction 1 as [| a r _ IH Ha]; simpl; [constructor |].
  constructor; [exact IH |].
  apply Forall_map; eapply Forall_impl; [| exact Ha].
  intros x Hx; apply Hf; exact Hx.
Qed.

End Orders.

(** [UPDATE ... SET done] touches neither ids nor creation times. *)
Lemma update_keeps_by_id (t : Task) (d : bool) (a b : Task) :
  by_id a b ->
  by_id (if id a =? id t then set_done a d else a)
        (if id b =? id t then set_done b d else b).
Proof.
  unfold by_id; destruct (id a =? id t), (id b =? id t); simpl; auto.
Qed.

Lemma update_keeps_creation_order (t : Task) (d : bool) (a b : Task) :
  in_creation_order a b ->
  in_creation_order (if id a =? id t then set_done a d else a)
                    (if id b =? id t then set_done b d else b).
Proof.
  unfold in_creation_order;
    destruct (id a =? id t), (id b =? id t); simpl; auto.
Qed.

(** ** The store along a run *)

Lemma ids_ok_append_task
    (db : DB) (uid : Z) (ttl : string) (due nt : value) (n : Z) :
  ids_ok db -> ids_ok (append_task db uid ttl due nt n).
Proof.
  intros [H1 H2]; split; unfold append_task; simpl.
  - apply StronglySorted_snoc; [exact H1 | exact H2].
  - apply Forall_app; split.
    + eapply Forall_impl; [| exact H2]; simpl; intros; lia.
    + repeat constructor; simpl; lia.
Qed.

Lemma ids_ok_delete_row (db : DB) (t : Task) :
  ids_ok db -> ids_ok (delete_row db t).
Proof.
  intros [H1 H2]; split; unfold delete_row; simpl.
  - apply StronglySorted_filter; exact H1.
  - apply Forall_forall; intros x Hx.
    apply filter_In in Hx; destruct Hx as [Hx _].
    exact (proj1 (Forall_forall _ _) H2 x Hx).
Qed.

Lemma ids_ok_update_done (db : DB) (t : Task) (d : bool) :
  ids_ok db -> ids_ok (update_done db t d).
Proof.
  intros [H1 H2]; split; unfold update_done; simpl.
  - apply StronglySorted_map; [apply update_keeps_by_id | exact H1].
  - apply Forall_map; eapply Forall_impl; [| exact H2].
    intros x Hx; destruct (id x =? id t); exact Hx.
Qed.

Lemma store_ok_empty (c : Z) : store_ok c empty_db.
Proof. split; constructor. Qed.

Lemma store_ok_later (c c' : Z) (db : DB) :
  c <= c' -> store_ok c db -> store_ok c' db.
Proof.
  intros Hc [H1 H2]; split; [exact H1 |].
  eapply Forall_impl; [| exact H2]; simpl; intros; lia.
Qed.

Lemma store_ok_append_task
    (c : Z) (db : DB) (uid : Z) (ttl : string) (due nt : value) (n : Z) :
  c <= n -> store_ok c db -> store_ok n (append_task db uid ttl due nt n).
Proof.
  intros Hc [H1 H2]; split; unfold append_task; simpl.
  - apply StronglySorted_snoc; [exact H1 |].
    eapply Forall_impl; [| exact H2].
    intros x [Hx1 Hx2]; unfold in_creation_order; simpl; lia.
  - apply Forall_app; split.
    + eapply Forall_impl; [| exact H2]; simpl; intros; lia.
    + repeat constructor; simpl; lia.
Qed.

Lemma store_ok_delete_row (c : Z) (db : DB) (t : Task) :
  store_ok c db -> store_ok c (delete_row db t).
Proof.
  intros [H1 H2]; split; unfold delete_row; simpl.
  - apply StronglySorted_filter; exact H1.
  - apply Forall_forall; intros x Hx.
    apply filter_In in Hx; destruct Hx as [Hx _].
    exact (proj1 (Forall_forall _ _) H2 x Hx).
Qed.

Lemma store_ok_update_done (c : Z) (db : DB) (t : Task) (d : bool) :
  store_ok c db -> store_ok c (update_done db t d).
Proof.
  intros [H1 H2]; split; unfold update_done; simpl.
  - apply StronglySorted_map; [apply update_keeps_creation_order | exact H1].
  - apply Forall_map; eapply Forall_impl; [| exact H2].
    intros x Hx; destruct (id x =? id t); exact Hx.
Qed.

(** What a request can do to the store. *)
Lemma handle_store_cases (r : request) (e : env) (s : session) (db : DB) :
  let db' := db_of (handle r e s db) in
  db' = db
  \/ (exists name password, db' = snd (new_user db e name password))
  \/ (exists uid ttl due nt, db' = append_task db uid ttl due nt (now e))
  \/ (exists t, db' = delete_row db t)
  \/ (exists t d, db' = update_done db t d).
Proof.
  unfold handle, respond, db_of; destruct r; simpl.
  - destruct m; simpl; [auto |].
    destruct (_ || _); simpl; [auto |].
    destruct (user_by_username _ _); simpl; [auto |].
    right; left; eauto.
  - destruct m; simpl; [auto |].
    destruct (user_by_username _ _) as [u |]; simpl; [| auto].
    destruct (check_password _ _); simpl; auto.
  - auto.
  - unfold index, login_required; destruct s; simpl; auto.
  - unfold tasks_api, login_required; destruct s; simpl; auto.
  - unfold add_task, login_required; destruct s as [uid |]; simpl; [| auto].
    destruct (get _ "title") as [v | x] eqn:Hv; simpl; [| auto].
    destruct (strip_method _) as [ttl | x]; simpl; [| auto].
    destruct (ttl =? "")%string; simpl; [auto |].
    destruct (get _ "due_date") as [d | x]; simpl; [| auto].
    destruct (get _ "note") as [n | x]; simpl; [| auto].
    unfold insert_task.
    destruct (text_column (or_ d VNone)) as [c1 | x]; simpl; [| auto].
    destruct (text_column (or_ n VNone)) as [c2 | x]; simpl; [| auto].
    right; right; left; eauto.
  - unfold delete_task, login_required; destruct s as [uid |]; simpl; [| auto].
    destruct (task_by_id_and_user _ _ _) as [t |]; simpl; [| auto].
    right; right; right; left; eauto.
  - unfold toggle_task, login_required; destruct s as [uid |]; simpl; [| auto].
    destruct (task_by_id_and_user _ _ _) as [t |]; simpl; [| auto].
    right; right; right; right; eauto.
Qed.

Lemma handle_ids_ok (r : request) (e : env) (s : session) (db : DB) :
  ids_ok db -> ids_ok (db_of (handle r e s db)).
Proof.
  intros H.
  destruct (handle_store_cases r e s db)
    as [-> | [(name & pw & ->) | [(uid & ttl & due & nt & ->)
       | [(t & ->) | (t & d & ->)]]]].
  - exact H.
  - exact H.
  - apply ids_ok_append_task; exact H.
  - apply ids_ok_delete_row; exact H.
  - apply ids_ok_update_done; exact H.
Qed.

Lemma handle_store_ok (c : Z) (r : request) (e : env) (s : session) (db : DB) :
  c <= now e ->
  store_ok c db ->
  store_ok (now e) (db_of (handle r e s db)).
Proof.
  intros Hc H.
  pose proof (store_ok_later c (now e) db Hc H) as H'.
  destruct (handle_store_cases r e s db)
    as [-> | [(name & pw & ->) | [(uid & ttl & due & nt & ->)
       | [(t & ->) | (t & d & ->)]]]].
  - exact H'.
  - exact H'.
  - apply (store_ok_append_task c); assumption.
  - apply store_ok_delete_row; exact H'.
  - apply store_ok_update_done; exact H'.
Qed.

Lemma run_ids_ok_from (evs : list event) (db : DB) :
  ids_ok db -> ids_ok (run db evs).
Proof.
  revert db; induction evs as [| ev r IH]; simpl; intros db H; [exact H |].
  apply IH, handle_ids_ok; exact H.
Qed.

(** Every store a run reaches keeps its tasks by increasing id. *)
Lemma run_ids_ok (evs : list event) : ids_ok (run empty_db evs).
Proof. apply run_ids_ok_from; split; constructor. Qed.

Lemma run_store_ok_from (evs : list event) (c : Z) (db : DB) :
  store_ok c db ->
  nondecreasing_from c (clock evs) = true ->
  exists c', store_ok c' (run db evs).
Proof.
  revert c db; induction evs as [| ev r IH]; simpl; intros c db H Hc.
  - exists c; exact H.
  - apply andb_true_iff in Hc; destruct Hc as [Hc Hr].
    apply Z.leb_le in Hc.
    apply (IH (now (ev_env ev))); [| exact Hr].
    apply (handle_store_ok c); assumption.
Qed.

Lemma run_store_ok (evs : list event) :
  nondecreasing (clock evs) = true ->
  exists c, store_ok c (run empty_db evs).
Proof.
  destruct evs as [| ev r]; simpl; intros Hc.
  - exists 0; apply store_ok_empty.
  - apply (run_store_ok_from r (now (ev_env ev))); [| exact Hc].
    apply (handle_store_ok (now (ev_env ev))); [lia | apply store_ok_empty].
Qed.

(** C2: in every store the requests can reach from the empty one, [/tasks]
    answers the caller with exactly the tasks whose owner is the caller
    (each once, none of another user), the latest insertion first, which is
    also by strictly descending id; and when the clock readings of the
    requests never went backwards, that order is by [created_at], latest
    first, with the larger id first at equal creation times. *)
Theorem list_owner_scoped_newest_first
    (evs : list event) (uid : Z) (e : env) :
  let db := run empty_db evs in
  let mine := filter (fun t => user_id t =? uid) (tasks db) in
  let rows := tasks_of_user db uid in
  handle Req_tasks e (Some uid) db
    = (Json 200 (VList (map task_json rows)), Some uid, db)
  /\ Permutation rows mine
  /\ (forall t, In t rows <-> In t (tasks db) /\ user_id t = uid)
  /\ rows = rev mine
  /\ StronglySorted (fun a b => id b < id a) rows
  /\ (nondecreasing (clock evs) = true -> StronglySorted newer rows).
Proof.
  intros db mine rows.
  split; [reflexivity |].
  destruct (tasks_of_user_scoped db uid) as [P M].
  split; [exact P |]. split; [exact M |].
  destruct (run_ids_ok evs) as [Hi _]; fold db in Hi.
  assert (E : rows = rev mine).
  { subst rows mine; unfold tasks_of_user.
    apply order_by_id_desc_rev, StronglySorted_filter; exact Hi. }
  split; [exact E |]. split.
  - rewrite E; apply (StronglySorted_rev by_id).
    + intros a b H; exact H.
    + apply StronglySorted_filter; exact Hi.
  - intros Hc; destruct (run_store_ok evs Hc) as [c [Hs _]]; fold db in Hs.
    rewrite E; apply (StronglySorted_rev in_creation_order).
    + intros a b [H1 H2]; unfold newer; lia.
    + apply StronglySorted_filter; exact Hs.
Qed.

(** ** Stripping *)

Lemma lstrip_head (s : string) :
  lstrip s = ""
  \/ exists c r, lstrip s = String c r /\ isspace c = false.
Proof.
  induction s as [| c r IH]; simpl; [left; reflexivity |].
  destruct (isspace c) eqn:E; [exact IH | right; eauto].
Qed.

Lemma rstrip_cons (c : ascii) (r : string) :
  isspace c = false -> rstrip (String c r) = String c (rstrip r).
Proof. intros E; simpl; rewrite E; destruct (rstrip r); reflexivity. Qed.

Lemma rstrip_idempotent (s : string) : rstrip (rstrip s) = rstrip s.
Proof.
  induction s as [| c r IH]; [reflexivity |].
  cbn [rstrip]; destruct (rstrip r) as [| d q] eqn:E.
  - destruct (isspace c) eqn:Ec; [reflexivity |].
    cbn [rstrip]; rewrite Ec; reflexivity.
  - cbn [rstrip] in *; rewrite IH; reflexivity.
Qed.

(** Stripping twice is stripping once. *)
Lemma strip_idempotent (s : string) : strip (strip s) = strip s.
Proof.
  unfold strip; destruct (lstrip_head s) as [E | (c & r & E & Hc)]; rewrite E.
  - reflexivity.
  - rewrite (rstrip_cons c r Hc); cbn [lstrip]; rewrite Hc.
    rewrite <- (rstrip_cons c r Hc); apply rstrip_idempotent.
Qed.

(** ** What a request does *)

Lemma strip_method_ok (v : value) (ttl : string) :
  strip_method v = Ok ttl -> strip ttl = ttl.
Proof.
  destruct v; simpl; try discriminate.
  intros H; injection H as <-; apply strip_idempotent.
Qed.

Lemma handle_effect (r : request) (e : env) (s : session) (db : DB) :
  effect r e s db (db_of (handle r e s db)).
Proof.
  unfold handle, respond, db_of; destruct r; simpl.
  - destruct m; simpl; [constructor |].
    destruct (String.eqb_spec (strip (form_get_or_empty f "username")) "")
      as [Hu | Hu]; simpl; [constructor |].
    destruct (String.eqb_spec (form_get_or_empty f "password") "")
      as [Hp | Hp]; simpl; [constructor |].
    destruct (user_by_username _ _) eqn:Hfree; simpl; [constructor |].
    apply (eff_register _ _ _ _ f); auto.
  - destruct m; simpl; [constructor |].
    destruct (user_by_username _ _) as [u |]; simpl; [| constructor].
    destruct (check_password _ _); simpl; constructor.
  - constructor.
  - unfold index, login_required; destruct s; simpl; constructor.
  - unfold tasks_api, login_required; destruct s; simpl; constructor.
  - unfold add_task, login_required; destruct s as [uid |]; simpl;
      [| constructor].
    destruct (get _ "title") as [v | x] eqn:Hv; simpl; [| constructor].
    destruct (strip_method _) as [ttl | x] eqn:Ht; simpl; [| constructor].
    destruct (String.eqb_spec ttl "") as [He | He]; simpl; [constructor |].
    destruct (get _ "due_date") as [d | x]; simpl; [| constructor].
    destruct (get _ "note") as [n | x]; simpl; [| constructor].
    unfold insert_task.
    destruct (text_column (or_ d VNone)) as [c1 | x] eqn:H1; simpl;
      [| constructor].
    destruct (text_column (or_ n VNone)) as [c2 | x] eqn:H2; simpl;
      [| constructor].
    apply (eff_add _ _ _ _ body uid); auto.
    + apply (strip_method_ok _ _ Ht).
    + apply (text_column_written _ _ H1).
    + apply (text_column_written _ _ H2).
  - unfold delete_task, login_required; destruct s as [uid |]; simpl;
      [| constructor].
    destruct (task_by_id_and_user _ _ _) as [t |] eqn:Ht; simpl;
      [| constructor].
    apply (eff_delete _ _ _ _ task_id uid); auto.
  - unfold toggle_task, login_required; destruct s as [uid |]; simpl;
      [| constructor].
    destruct (task_by_id_and_user _ _ _) as [t |] eqn:Ht; simpl;
      [| constructor].
    apply (eff_toggle _ _ _ _ task_id uid); auto.
Qed.

(** ** Further behaviour of the views *)

Lemma toggle_missing (db : DB) (uid task_id : Z) (e : env) :
  task_by_id_and_user db task_id uid = None ->
  handle (Req_toggle task_id) e (Some uid) db
    = (not_found_response, Some uid, db).
Proof.
  intros H; unfold handle, respond; simpl.
  unfold toggle_task, login_required; simpl.
  rewrite H; reflexivity.
Qed.

Lemma delete_missing (db : DB) (uid task_id : Z) (e : env) :
  task_by_id_and_user db task_id uid = None ->
  handle (Req_delete task_id) e (Some uid) db
    = (not_found_response, Some uid, db).
Proof.
  intros H; unfold handle, respond; simpl.
  unfold delete_task, login_required; simpl.
  rewrite H; reflexivity.
Qed.

Lemma find_filter_none {A : Type} (p q : A -> bool) (l : list A) :
  (forall x, q x = true -> p x = false) ->
  find p (filter q l) = None.
Proof.
  intros H; induction l as [| a l IH]; simpl; [reflexivity |].
  destruct (q a) eqn:E; [| exact IH].
  simpl; rewrite (H a E); exact IH.
Qed.

(** X1: once [delete] has removed a task, the same caller's [toggle] and
    [delete] of that id answer 404 and change nothing. *)
Theorem delete_then_not_found
    (db : DB) (uid task_id : Z) (t : Task) (e e' : env) :
  task_by_id_and_user db task_id uid = Some t ->
  let o := handle (Req_delete task_id) e (Some uid) db in
  response_of o = ok_response
  /\ handle (Req_delete task_id) e' (Some uid) (db_of o)
     = (not_found_response, Some uid, db_of o)
  /\ handle (Req_toggle task_id) e' (Some uid) (db_of o)
     = (not_found_response, Some uid, db_of o).
Proof.
  intros H o.
  assert (E : o = (ok_response, Some uid, delete_row db t))
    by (apply delete_found; exact H).
  rewrite E; unfold response_of, db_of; cbn [fst snd].
  split; [reflexivity |].
  destruct (task_by_id_and_user_sound db task_id uid t H) as (_ & Hid & _).
  assert (N : task_by_id_and_user (delete_row db t) task_id uid = None).
  { unfold task_by_id_and_user, delete_row; simpl.
    apply find_filter_none; intros x Hx.
    destruct (Z.eqb_spec (id x) task_id) as [Hi |]; [| reflexivity].
    rewrite Hi, Hid, Z.eqb_refl in Hx; discriminate. }
  split; [apply delete_missing | apply toggle_missing]; exact N.
Qed.

(** X2: [toggle] touches nothing but [done]: after it, answered or
    refused, every row has the id, owner, title, due date, note and
    creation time it had, and the users are the same. *)
Theorem toggle_changes_only_done
    (db : DB) (task_id : Z) (e : env) (s : session) :
  let db' := db_of (handle (Req_toggle task_id) e s db) in
  map frozen (tasks db') = map frozen (tasks db)
  /\ tasks_seq db' = tasks_seq db
  /\ users db' = users db.
Proof.
  intros db'; subst db'.
  destruct (handle_effect (Req_toggle task_id) e s db)
    as [| f Hr | body uid ttl due nt Hr | tid uid t Hr | tid uid t Hr _ _];
    try discriminate; [repeat split |].
  unfold update_done; simpl; repeat split.
  rewrite map_map; apply map_ext.
  intros x; destruct (id x =? id t); reflexivity.
Qed.

(** X3: each table has its writers.  Only a POST to [/register] can
    change the users; only [/add], [/delete] and [/toggle] can change the
    tasks; the other requests leave the store as it is. *)
Theorem routes_write_only_their_table
    (r : request) (e : env) (s : session) (db : DB) :
  let db' := db_of (handle r e s db) in
  (writes_users r = false ->
   users db' = users db /\ users_seq db' = users_seq db)
  /\ (writes_tasks r = false ->
      tasks db' = tasks db /\ tasks_seq db' = tasks_seq db)
  /\ (writes_users r = false -> writes_tasks r = false -> db' = db).
Proof.
  intros db'; subst db'.
  destruct (handle_effect r e s db)
    as [| f Hr | body uid ttl due nt Hr | tid uid t Hr | tid uid t Hr];
    try subst r; simpl; repeat split; auto; discriminate.
Qed.

(** X4: a body that is falsy ([null], [{}], [[]], [0], [""], [false]), or
    an object whose title is missing or falsy, makes [add] answer 400 with
    [{"error": "empty"}] and create nothing. *)
Theorem add_without_title_rejected
    (body : value) (uid : Z) (e : env) (db : DB) :
  truthy body = false
  \/ (exists d, body = VDict d /\ truthy (field d "title") = false) ->
  handle (Req_add body) e (Some uid) db
    = (Json 400 (VDict [("error", VStr "empty")]), Some uid, db).
Proof.
  unfold handle, respond; simpl; unfold add_task, login_required.
  intros [H | (d & -> & H)].
  - unfold or_ at 1; rewrite H; reflexivity.
  - assert (E : get (or_ (VDict d) (VDict [])) "title"
                = Ok (field d "title")).
    { destruct d; reflexivity. }
    rewrite E; simpl; unfold or_ at 1; rewrite H; reflexivity.
Qed.

(** X5: a body that is truthy but no object (a non-empty array or string,
    a non-zero number, [true]), or an object whose title is truthy but no
    string, makes the view raise: the answer is the 500 page and nothing is
    stored. *)
Theorem add_ill_typed_fails
    (body : value) (uid : Z) (e : env) (db : DB) :
  (truthy body = true /\ forall d, body <> VDict d)
  \/ (exists d, body = VDict d
                /\ truthy (field d "title") = true
                /\ forall x, field d "title" <> VStr x) ->
  handle (Req_add body) e (Some uid) db
    = (InternalServerError, Some uid, db).
Proof.
  unfold handle, respond; simpl; unfold add_task, login_required.
  intros [[H N] | (d & -> & H & N)].
  - unfold or_ at 1; rewrite H.
    destruct body; try reflexivity.
    exfalso; exact (N d eq_refl).
  - assert (E : get (or_ (VDict d) (VDict [])) "title"
                = Ok (field d "title")).
    { destruct d; reflexivity. }
    rewrite E; simpl; unfold or_ at 1; rewrite H.
    destruct (field d "title"); try reflexivity.
    exfalso; exact (N s eq_refl).
Qed.

(** X6: [register] refuses a username that strips to nothing and an empty
    password with [Enter username and password], before it looks the
    username up; no user is created and the session stays. *)
Theorem register_blank_rejected
    (f : form) (e : env) (s : session) (db : DB) :
  typed_username f = "" \/ typed_password f = "" ->
  handle (Req_register POST f) e s db
    = (Render REGISTER_HTML (ctx_error (Some "Enter username and password")),
       s, db).
Proof.
  unfold typed_username, typed_password, handle, respond; simpl.
  intros [-> | ->]; simpl; [reflexivity |].
  rewrite orb_true_r; reflexivity.
Qed.

(** X7: [logout] unbinds the session whatever it was and touches no
    table; the next request of that browser to a session-required route is
    sent to the login page. *)
Theorem logout_then_gate
    (r : request) (e e' : env) (s : session) (db : DB) :
  session_required r = true ->
  let o := handle Req_logout e s db in
  o = (Redirect "login", None, db)
  /\ handle r e' (session_of o) (db_of o) = (Redirect "login", None, db).
Proof.
  intros Hr o; split; [reflexivity |].
  destruct r; simpl in Hr; try discriminate; reflexivity.
Qed.

(** X8: a request leaves the session as it was unless it is [logout],
    which unbinds it, or a [login] or [register] that succeeds, which binds
    it to the id of a stored user whose username is the stripped one of the
    form; for [login], that user's hash accepts the typed password. *)
Theorem session_changes
    (r : request) (e : env) (s : session) (db : DB) :
  let o := handle r e s db in
  session_of o = s
  \/ (r = Req_logout /\ session_of o = None)
  \/ (exists f u,
        (r = Req_register POST f
         \/ (r = Req_login POST f
             /\ check_password u (typed_password f) = true))
        /\ In u (users (db_of o))
        /\ username u = typed_username f
        /\ session_of o = Some (u_id u)).
Proof.
  unfold handle, respond, session_of, db_of; destruct r; simpl.
  - destruct m; simpl; [auto |].
    destruct (_ || _); simpl; [auto |].
    destruct (user_by_username _ _); simpl; [auto |].
    right; right; exists f; eexists; split; [left; reflexivity |].
    split; [apply in_or_app; right; left; reflexivity |].
    split; reflexivity.
  - destruct m; simpl; [auto |].
    destruct (user_by_username _ _) as [u |] eqn:Hu; simpl; [| auto].
    destruct (check_password u _) eqn:Hc; simpl; [| auto].
    right; right; exists f, u; split; [right; split; [reflexivity | exact Hc] |].
    apply find_some in Hu; destruct Hu as [Hin Hn].
    apply String.eqb_eq in Hn.
    split; [exact Hin |]. split; [exact Hn | reflexivity].
  - auto.
  - unfold index, login_required; destruct s; simpl; auto.
  - unfold tasks_api, login_required; destruct s; simpl; auto.
  - unfold add_task, login_required; destruct s as [uid |]; simpl; [| auto].
    destruct (get _ "title") as [v | x]; simpl; [| auto].
    destruct (strip_method _) as [ttl | x]; simpl; [| auto].
    destruct (ttl =? "")%string; simpl; [auto |].
    destruct (get _ "due_date") as [d | x]; simpl; [| auto].
    destruct (get _ "note") as [n | x]; simpl; [| auto].
    destruct (insert_task _ _ _ _ _ _); simpl; auto.
  - unfold delete_task, login_required; destruct s as [uid |]; simpl; [| auto].
    destruct (task_by_id_and_user _ _ _) as [t |]; simpl; auto.
  - unfold toggle_task, login_required; destruct s as [uid |]; simpl; [| auto].
    destruct (task_by_id_and_user _ _ _) as [t |]; simpl; auto.
Qed.

(** A session a view binds is the id of a stored user. *)
Lemma handle_session_user (r : request) (e : env) (s : session) (db : DB) :
  let o := handle r e s db in
  session_of o = s
  \/ session_of o = None
  \/ (exists u, In u (users (db_of o)) /\ session_of o = Some (u_id u)).
Proof.
  unfold handle, respond, session_of, db_of; destruct r; simpl.
  - destruct m; simpl; [auto |].
    destruct (_ || _); simpl; [auto |].
    destruct (user_by_username _ _); simpl; [auto |].
    right; right; eexists; split;
      [apply in_or_app; right; left; reflexivity | reflexivity].
  - destruct m; simpl; [auto |].
    destruct (user_by_username _ _) as [u |] eqn:Hu; simpl; [| auto].
    destruct (check_password u _); simpl; [| auto].
    apply find_some in Hu; right; right; exists u; tauto.
  - auto.
  - unfold index, login_required; destruct s; simpl; auto.
  - unfold tasks_api, login_required; destruct s; simpl; auto.
  - unfold add_task, login_required; destruct s as [uid |]; simpl; [| auto].
    destruct (get _ "title") as [v | x]; simpl; [| auto].
    destruct (strip_method _) as [ttl | x]; simpl; [| auto].
    destruct (ttl =? "")%string; simpl; [auto |].
    destruct (get _ "due_date") as [d | x]; simpl; [| auto].
    destruct (get _ "note") as [n | x]; simpl; [| auto].
    destruct (insert_task _ _ _ _ _ _); simpl; auto.
  - unfold delete_task, login_required; destruct s as [uid |]; simpl; [| auto].
    destruct (task_by_id_and_user _ _ _) as [t |]; simpl; auto.
  - unfold toggle_task, login_required; destruct s as [uid |]; simpl; [| auto].
    destruct (task_by_id_and_user _ _ _) as [t |]; simpl; auto.
Qed.

(** ** Owners in a reachable store *)

Lemma unique_by_id (l : list Task) (a b : Task) :
  StronglySorted by_id l ->
  In a l -> In b l -> id a = id b -> a = b.
Proof.
  induction 1 as [| x r _ IH Hx]; simpl; [contradiction |].
  pose proof (proj1 (Forall_forall _ _) Hx) as Hall.
  intros [<- | Ha] [<- | Hb] E.
  - reflexivity.
  - apply Hall in Hb; unfold by_id in Hb; lia.
  - apply Hall in Ha; unfold by_id in Ha; lia.
  - apply IH; assumption.
Qed.

Lemma filter_filter_keep {A : Type} (p q : A -> bool) (l : list A) :
  (forall x, In x l -> p x = true -> q x = true) ->
  filter p (filter q l) = filter p l.
Proof.
  induction l as [| a l IH]; simpl; intros H; [reflexivity |].
  assert (IH' : filter p (filter q l) = filter p l)
    by (apply IH; intros x Hx; apply H; right; exact Hx).
  destruct (q a) eqn:Eq; simpl.
  - rewrite IH'; reflexivity.
  - destruct (p a) eqn:Ep; [| exact IH'].
    rewrite (H a (or_introl eq_refl) Ep) in Eq; discriminate.
Qed.

Lemma filter_map_keep {A : Type} (p : A -> bool) (f : A -> A) (l : list A) :
  (forall x, In x l -> p (f x) = p x) ->
  (forall x, In x l -> p x = true -> f x = x) ->
  filter p (map f l) = filter p l.
Proof.
  induction l as [| a l IH]; simpl; intros H1 H2; [reflexivity |].
  rewrite (H1 a (or_introl eq_refl)).
  rewrite IH by (intros x Hx; first [apply H1 | apply H2]; right; exact Hx).
  destruct (p a) eqn:Ep; [| reflexivity].
  rewrite (H2 a (or_introl eq_refl) Ep); reflexivity.
Qed.

Lemma filter_filter_comm {A : Type} (p q : A -> bool) (l : list A) :
  filter p (filter q l) = filter q (filter p l).
Proof.
  induction l as [| a l IH]; simpl; [reflexivity |].
  destruct (q a) eqn:Eq, (p a) eqn:Ep; simpl; rewrite ?Eq, ?Ep, IH;
    reflexivity.
Qed.

(** In a store with ids in order, the rows of one user survive what
    another user's view writes. *)
Lemma effect_keeps_others
    (r : request) (e : env) (s : session) (db db' : DB) (uid : Z) :
  ids_ok db ->
  s <> Some uid ->
  effect r e s db db' ->
  filter (fun t => user_id t =? uid) (tasks db')
  = filter (fun t => user_id t =? uid) (tasks db).
Proof.
  intros [Hs _] Hne
    [| f _ _ _ _ | body u ttl due nt _ -> _ _ _ _
     | tid u t _ -> Ht | tid u t _ -> Ht].
  - reflexivity.
  - reflexivity.
  - unfold append_task; simpl; rewrite filter_app; simpl.
    destruct (Z.eqb_spec u uid) as [-> |]; [congruence |].
    apply app_nil_r.
  - destruct (task_by_id_and_user_sound _ _ _ _ Ht) as (Hin & _ & Hu).
    unfold delete_row; simpl; apply filter_filter_keep.
    intros x Hx Hp; apply Z.eqb_eq in Hp.
    destruct (Z.eqb_spec (id x) (id t)) as [E |]; [| reflexivity].
    rewrite (unique_by_id _ _ _ Hs Hx Hin E) in Hp; congruence.
  - destruct (task_by_id_and_user_sound _ _ _ _ Ht) as (Hin & _ & Hu).
    unfold update_done; simpl; apply filter_map_keep.
    + intros x _; destruct (id x =? id t); reflexivity.
    + intros x Hx Hp; apply Z.eqb_eq in Hp.
      destruct (Z.eqb_spec (id x) (id t)) as [E |]; [| reflexivity].
      rewrite (unique_by_id _ _ _ Hs Hx Hin E) in Hp; congruence.
Qed.

(** X9: in a store the requests can reach, whatever a request does under
    a session that is not bound to user [uid], the list that [/tasks] gives
    [uid] is the same before and after: no view adds to, flips or removes
    another user's tasks. *)
Theorem other_users_tasks_untouched
    (evs : list event) (r : request) (e : env) (s : session) (uid : Z) :
  s <> Some uid ->
  let db := run empty_db evs in
  tasks_of_user (db_of (handle r e s db)) uid = tasks_of_user db uid.
Proof.
  intros Hne db; unfold tasks_of_user.
  rewrite (effect_keeps_others r e s db _ uid (run_ids_ok evs) Hne
             (handle_effect r e s db)).
  reflexivity.
Qed.

Lemma delete_sorted_perm (l : list Task) (t : Task) :
  StronglySorted by_id l ->
  In t l ->
  Permutation l (t :: filter (fun x => negb (id x =? id t)) l).
Proof.
  induction 1 as [| a r Hr IH Ha]; simpl; [contradiction |].
  pose proof (proj1 (Forall_forall _ _) Ha) as Hall.
  intros [-> | Hin].
  - rewrite Z.eqb_refl; simpl.
    rewrite (proj2 (filter_ext_in_iff _ (fun _ => true) r)).
    + assert (E : filter (fun _ : Task => true) r = r).
      { clear; induction r as [| x r IH]; simpl; [| rewrite IH]; reflexivity. }
      rewrite E; reflexivity.
    + intros x Hx; apply Hall in Hx; unfold by_id in Hx.
      destruct (Z.eqb_spec (id x) (id t)); [lia | reflexivity].
  - pose proof (Hall t Hin) as Hlt; unfold by_id in Hlt.
    destruct (Z.eqb_spec (id a) (id t)); [lia |]; simpl.
    rewrite perm_swap; constructor; apply IH; exact Hin.
Qed.

(** X10: in a store the requests can reach, a [delete] of a task the
    caller owns removes that one row and no other, and the caller's list is
    the list before without it, in the same order. *)
Theorem delete_removes_one_row
    (evs : list event) (uid task_id : Z) (t : Task) (e : env) :
  let db := run empty_db evs in
  task_by_id_and_user db task_id uid = Some t ->
  let db' := db_of (handle (Req_delete task_id) e (Some uid) db) in
  Permutation (tasks db) (t :: tasks db')
  /\ tasks_of_user db' uid
     = filter (fun x => negb (id x =? task_id)) (tasks_of_user db uid).
Proof.
  intros db Ht db'.
  destruct (task_by_id_and_user_sound _ _ _ _ Ht) as (Hin & Hid & _).
  destruct (run_ids_ok evs) as [Hs Hb]; fold db in Hs, Hb.
  assert (E : db' = delete_row db t).
  { subst db'; rewrite (delete_found db uid task_id t e Ht); reflexivity. }
  rewrite E; split.
  - apply delete_sorted_perm; assumption.
  - unfold tasks_of_user, delete_row; simpl; subst task_id.
    rewrite !order_by_id_desc_rev
      by (repeat apply StronglySorted_filter; exact Hs).
    rewrite filter_rev, filter_filter_comm; reflexivity.
Qed.

(** X11: in a store the requests can reach, a task that [add] accepts
    (a usable title, no array or object for [due_date] or [note]) comes
    first in its owner's list, not done, under a fresh id, with the
    stripped title, the caller as owner and each optional field as its
    column keeps it: nothing, the string, or a number as text; the rest of
    the list is the list before. *)
Theorem add_then_listed_first
    (evs : list event) (uid : Z) (e : env)
    (d : list (string * value)) (ttl : string) :
  assoc "title" d = Some (VStr ttl) ->
  strip ttl <> "" ->
  container (field d "due_date") = false ->
  container (field d "note") = false ->
  let db := run empty_db evs in
  let db' := db_of (handle (Req_add (VDict d)) e (Some uid) db) in
  tasks_of_user db' uid
  = mkTask (tasks_seq db) uid (strip ttl) (stored_text (field d "due_date"))
           (stored_text (field d "note")) false (now e)
    :: tasks_of_user db uid
  /\ Forall (fun t => id t < tasks_seq db) (tasks db).
Proof.
  intros Hd Hs H1 H2 db db'.
  destruct (run_ids_ok evs) as [Hi Hb]; fold db in Hi, Hb.
  split; [| exact Hb].
  assert (Hi' : ids_ok db') by (apply handle_ids_ok; split; assumption).
  destruct Hi' as [Hi' _]; revert Hi'.
  subst db'; rewrite (add_task_ok db uid e d ttl Hd Hs H1 H2).
  unfold db_of, tasks_of_user; cbn [snd]; intros Hi'.
  rewrite !order_by_id_desc_rev
    by (apply StronglySorted_filter; assumption).
  unfold append_task; simpl; rewrite filter_app; simpl.
  rewrite Z.eqb_refl, rev_app_distr; reflexivity.
Qed.

Lemma filter_map_comm {A : Type} (p : A -> bool) (f : A -> A) (l : list A) :
  (forall x, p (f x) = p x) ->
  filter p (map f l) = map f (filter p l).
Proof.
  intros H; induction l as [| a l IH]; simpl; [reflexivity |].
  rewrite H; destruct (p a); simpl; rewrite IH; reflexivity.
Qed.

(** X18: in a store the requests can reach, a [toggle] of a task the
    caller owns flips [done] on that task and leaves the caller's list
    otherwise as it was: same tasks, same order. *)
Theorem toggle_flips_one_task
    (evs : list event) (uid task_id : Z) (t : Task) (e : env) :
  let db := run empty_db evs in
  task_by_id_and_user db task_id uid = Some t ->
  let db' := db_of (handle (Req_toggle task_id) e (Some uid) db) in
  tasks_of_user db' uid
  = map (fun x => if id x =? task_id then set_done x (negb (done x)) else x)
        (tasks_of_user db uid).
Proof.
  intros db Ht db'.
  destruct (task_by_id_and_user_sound _ _ _ _ Ht) as (Hin & Hid & _).
  destruct (run_ids_ok evs) as [Hs Hb]; fold db in Hs, Hb.
  assert (Hs' : StronglySorted by_id (tasks db'))
    by (apply handle_ids_ok; split; assumption).
  revert Hs'; subst db'; rewrite (toggle_found db uid task_id t e Ht).
  unfold db_of, tasks_of_user; cbn [snd]; intros Hs'.
  rewrite !order_by_id_desc_rev by (apply StronglySorted_filter; assumption).
  unfold update_done; simpl.
  rewrite filter_map_comm
    by (intros x; destruct (id x =? id t); reflexivity).
  rewrite <- map_rev; apply map_ext_in.
  intros x Hx; apply in_rev, filter_In in Hx; destruct Hx as [Hx _].
  rewrite Hid; destruct (Z.eqb_spec (id x) task_id) as [E |]; [| reflexivity].
  rewrite (unique_by_id _ x t Hs Hx Hin) by congruence; reflexivity.
Qed.

(** ** Rows in a reachable store *)

Lemma NoDup_snoc {A : Type} (l : list A) (x : A) :
  NoDup l -> ~ In x l -> NoDup (l ++ [x]).
Proof.
  intros Hl Hx; apply NoDup_app; [exact Hl | repeat constructor; intros [] |].
  intros a Ha [<- | []]; exact (Hx Ha).
Qed.

Lemma effect_users_ok
    (r : request) (e : env) (s : session) (db db' : DB) :
  users_ok db -> effect r e s db db' -> users_ok db'.
Proof.
  intros (H1 & Hn & Hi & Hr)
    [| f _ Hu _ Hfree | body u ttl due nt _ _ _ _ _ _
     | tid u t _ _ _ | tid u t _ _ _];
    try (repeat split; assumption).
  pose proof (proj1 (Forall_forall _ _) Hr) as Hall.
  unfold users_ok, new_user, insert_user; simpl.
  rewrite !map_app; simpl.
  split; [lia |]. split; [| split].
  - apply NoDup_snoc; [exact Hn |].
    intros Hin; apply in_map_iff in Hin; destruct Hin as (x & Hx & Hin).
    apply (find_none _ _ Hfree) in Hin.
    rewrite Hx, String.eqb_refl in Hin; discriminate.
  - apply NoDup_snoc; [exact Hi |].
    intros Hin; apply in_map_iff in Hin; destruct Hin as (x & Hx & Hin).
    destruct (Hall x Hin) as (_ & _ & Hlt); lia.
  - apply Forall_app; split.
    + eapply Forall_impl; [| exact Hr].
      intros x (A & B & C); repeat split; try assumption; lia.
    + repeat constructor; simpl; try lia; try exact Hu.
      unfold typed_username; apply strip_idempotent.
Qed.

Lemma effect_task_rows_ok
    (r : request) (e : env) (s : session) (db db' : DB) :
  task_rows_ok db -> effect r e s db db' -> task_rows_ok db'.
Proof.
  intros (H1 & Hr)
    [| f _ _ _ _ | body u ttl due nt _ _ Hne Hst Hdue Hnt
     | tid u t _ _ _ | tid u t _ _ _]; unfold task_rows_ok; simpl.
  - split; assumption.
  - split; assumption.
  - split; [lia |]. apply Forall_app; split.
    + eapply Forall_impl; [| exact Hr].
      intros x (A & B & C & D & E); repeat split; try assumption; lia.
    + constructor; [| constructor].
      unfold task_row_ok; simpl; repeat split; try assumption; lia.
  - split; [exact H1 |].
    apply Forall_forall; intros x Hx.
    apply filter_In in Hx; destruct Hx as [Hx _].
    exact (proj1 (Forall_forall _ _) Hr x Hx).
  - split; [exact H1 |].
    apply Forall_map; eapply Forall_impl; [| exact Hr].
    intros x Hx; destruct (id x =? id t); exact Hx.
Qed.

Lemma run_rows_ok_from (evs : list event) (db : DB) :
  users_ok db /\ task_rows_ok db ->
  users_ok (run db evs) /\ task_rows_ok (run db evs).
Proof.
  revert db; induction evs as [| ev r IH]; simpl; intros db [Hu Ht];
    [split; assumption |].
  apply IH; split;
    [eapply effect_users_ok | eapply effect_task_rows_ok];
    eauto using handle_effect.
Qed.

Lemma run_rows_ok (evs : list event) :
  users_ok (run empty_db evs) /\ task_rows_ok (run empty_db evs).
Proof.
  apply run_rows_ok_from; split.
  - repeat split; simpl; try lia; constructor.
  - split; simpl; [lia | constructor].
Qed.


(** X12: in every store the requests can reach, no two users share a
    username or an id, and every username is non-empty, free of
    surrounding whitespace, with an id between 1 and the counter. *)
Theorem registered_users_well_formed (evs : list event) :
  let db := run empty_db evs in
  NoDup (map username (users db))
  /\ NoDup (map u_id (users db))
  /\ Forall (fun u => username u <> "" /\ strip (username u) = username u
                      /\ 1 <= u_id u < users_seq db) (users db).
Proof.
  destruct (run_rows_ok evs) as [(_ & H1 & H2 & H3) _].
  repeat split; assumption.
Qed.


(** X14: in a store the requests can reach, the session a successful
    [register] opens makes [/] render the application page for the very
    user just created, under the stripped username. *)
Theorem register_then_index
    (evs : list event) (f : form) (e e' : env) (s : session) :
  let db := run empty_db evs in
  typed_username f <> "" ->
  typed_password f <> "" ->
  user_by_username db (typed_username f) = None ->
  let o := handle (Req_register POST f) e s db in
  handle Req_index e' (session_of o) (db_of o)
  = (Render APP_HTML
       (ctx_user
          (Some (mkUser (users_seq db) (typed_username f)
                        (generate_password_hash (salt e) (typed_password f))
                        (now e)))),
     Some (users_seq db), db_of o).
Proof.
  intros db Hu Hp Hfree o.
  destruct (run_rows_ok evs) as [(_ & _ & _ & Hr) _]; fold db in Hr.
  subst o; rewrite (register_ok db f e s Hu Hp Hfree).
  unfold session_of, db_of; cbn [fst snd].
  unfold handle, respond; simpl.
  unfold index, login_required; simpl.
  unfold user_by_id; simpl.
  rewrite find_app_fresh; simpl; [rewrite Z.eqb_refl; reflexivity |].
  destruct (find _ (users db)) as [u |] eqn:E; [| reflexivity].
  apply find_some in E; destruct E as [Hin E]; apply Z.eqb_eq in E.
  destruct (proj1 (Forall_forall _ _) Hr u Hin) as (_ & _ & Hlt); lia.
Qed.

(** ** Honest browsers *)

Lemma effect_users_grow
    (r : request) (e : env) (s : session) (db db' : DB) (u : User) :
  effect r e s db db' -> In u (users db) -> In u (users db').
Proof.
  intros [| f _ _ _ _ | body uid ttl due nt _ _ _ _ _ _
          | tid uid t _ _ _ | tid uid t _ _ _] H; try exact H.
  unfold new_user, insert_user; simpl; apply in_or_app; left; exact H.
Qed.

Lemma handle_references_ok
    (j : cookies) (db : DB) (c : nat) (r : request) (e : env) :
  references_ok j db ->
  let o := handle r e (j c) db in
  references_ok (set_cookie j c (session_of o)) (db_of o).
Proof.
  intros [Hj Ht] o.
  pose proof (handle_effect r e (j c) db) as Heff; fold o in Heff.
  assert (Hgrow : forall u, In u (users db) -> In u (users (db_of o)))
    by (intros u; apply (effect_users_grow _ _ _ _ _ _ Heff)).
  split.
  - intros c' uid; unfold set_cookie.
    destruct (Nat.eqb c' c).
    + pose proof (handle_session_user r e (j c) db) as Hs.
      cbv zeta in Hs; fold o in Hs.
      destruct Hs as [E | [E | (u & Hin & E)]]; rewrite E.
      * intros H; destruct (Hj c uid H) as (u & Hu & Hid); eauto.
      * discriminate.
      * intros H; injection H as <-; eauto.
    + intros H; destruct (Hj c' uid H) as (u & Hu & Hid); eauto.
  - revert Heff; generalize (db_of o); intros db' Heff.
    destruct Heff as [| f _ _ _ _ | body uid ttl due nt _ Hs _ _ _ _
                      | tid uid t _ _ _ | tid uid t _ _ _]; simpl.
    + exact Ht.
    + intros t Hin; destruct (Ht t Hin) as (u & Hu & Hid).
      exists u; split; [apply in_or_app; left; exact Hu | exact Hid].
    + intros t Hin; apply in_app_or in Hin; destruct Hin as [Hin | [<- | []]].
      * apply Ht; exact Hin.
      * simpl; apply (Hj c); exact Hs.
    + intros x Hx; apply filter_In in Hx; apply Ht, Hx.
    + intros x Hx; apply in_map_iff in Hx; destruct Hx as (y & <- & Hy).
      destruct (Ht y Hy) as (u & Hu & Hid); exists u; split; [exact Hu |].
      destruct (id y =? id t); exact Hid.
Qed.

Lemma browse_references_ok (vs : list visit) (j : cookies) (db : DB) :
  references_ok j db ->
  references_ok (fst (browse j db vs)) (snd (browse j db vs)).
Proof.
  revert j db; induction vs as [| v r IH]; simpl; intros j db H; [exact H |].
  apply IH, handle_references_ok; exact H.
Qed.

(** X15: when every browser presents the session the server last gave it,
    starting with none on an empty store, then after any visits each bound
    session names the id of a stored user and each task is owned by a
    stored user: [/] finds the user to render, and no task is orphaned. *)
Theorem sessions_and_tasks_reference_users (vs : list visit) :
  let j := fst (browse no_cookies empty_db vs) in
  let db := snd (browse no_cookies empty_db vs) in
  (forall c uid, j c = Some uid ->
     exists u, user_by_id db uid = Some u /\ u_id u = uid)
  /\ (forall t, In t (tasks db) ->
        exists u, user_by_id db (user_id t) = Some u /\ u_id u = user_id t).
Proof.
  intros j db.
  assert (H : references_ok j db).
  { apply browse_references_ok; split; [discriminate | intros t []]. }
  assert (F : forall uid, (exists u, In u (users db) /\ u_id u = uid) ->
                exists u, user_by_id db uid = Some u /\ u_id u = uid).
  { intros uid (u & Hu & Hid); unfold user_by_id.
    destruct (find _ (users db)) as [u' |] eqn:E.
    - apply find_some in E; destruct E as [_ E]; apply Z.eqb_eq in E; eauto.
    - apply (find_none _ _ E) in Hu; rewrite Hid, Z.eqb_refl in Hu.
      discriminate. }
  destruct H as [Hj Ht]; split.
  - intros c uid Hc; apply F, (Hj c); exact Hc.
  - intros t Hin; apply F, Ht; exact Hin.
Qed.

(** ** Accounts over time *)

Lemma effect_keeps_account
    (r : request) (e : env) (s : session) (db db' : DB)
    (name : string) (u : User) :
  effect r e s db db' ->
  user_by_username db name = Some u ->
  user_by_username db' name = Some u.
Proof.
  intros [| f _ _ _ _ | body uid ttl due nt _ _ _ _ _ _
          | tid uid t _ _ _ | tid uid t _ _ _] H; try exact H.
  unfold user_by_username, new_user, insert_user in *; simpl.
  revert H; generalize (users db); intros l.
  induction l as [| a l IH]; simpl; [discriminate |].
  destruct (username a =? name)%string; [trivial | exact IH].
Qed.

Lemma run_keeps_account
    (evs : list event) (db : DB) (name : string) (u : User) :
  user_by_username db name = Some u ->
  user_by_username (run db evs) name = Some u.
Proof.
  revert db; induction evs as [| ev r IH]; simpl; intros db H; [exact H |].
  apply IH; eapply effect_keeps_account; [apply handle_effect | exact H].
Qed.

(** X16: no request removes or alters an account.  The user a username
    resolves to is still the one it resolves to after any further
    requests, so a login that the hash check accepts keeps succeeding, as
    the same user. *)
Theorem accounts_persist
    (db : DB) (evs : list event) (f : form) (u : User)
    (e : env) (s : session) :
  user_by_username db (typed_username f) = Some u ->
  check_password u (typed_password f) = true ->
  let db' := run db evs in
  user_by_username db' (typed_username f) = Some u
  /\ handle (Req_login POST f) e s db' = (Redirect "index", Some (u_id u), db').
Proof.
  intros Hu Hc db'.
  pose proof (run_keeps_account evs db _ u Hu) as Hu'; fold db' in Hu'.
  split; [exact Hu' | apply login_ok; assumption].
Qed.

End App.

(** ** Configuration *)

(** X17: the application is configured with the database URL exactly as
    the environment gives it.  A URL that begins with [postgres://] is
    rewritten to [postgresql://] into [DATABASE_URL], but that name is
    never read: the configured URL keeps the [postgres://] scheme. *)
Theorem postgres_rewrite_unused (environ : list (string * string)) :
  let cfg := configure environ in
  SQLALCHEMY_DATABASE_URI cfg
  = getenv environ "DATABASE_URL" "mysql+pymysql://root:@localhost/todo_db"
  /\ (forall rest,
        DB_URI cfg = ("postgres://" ++ rest)%string ->
        DATABASE_URL cfg = Some ("postgresql://" ++ rest)%string
        /\ SQLALCHEMY_DATABASE_URI cfg = ("postgres://" ++ rest)%string
        /\ SQLALCHEMY_DATABASE_URI cfg <> ("postgresql://" ++ rest)%string).
Proof.
  intros cfg; split; [reflexivity |].
  intros rest H; subst cfg; unfold configure in *; simpl in *.
  rewrite H; split; [| split; [reflexivity | discriminate]].
  destruct rest; reflexivity.
Qed.

(** ** The sample data at work *)

Lemma sample_check_generate (salt password : string) :
  Sample.check (Sample.hash salt password) password = true.
Proof.
  unfold Sample.check, Sample.hash.
  induction password as [| c p IH]; simpl.
  - destruct (ascii_dec "$" "$"); [destruct salt; reflexivity | congruence].
  - destruct (ascii_dec c c); [exact IH | congruence].
Qed.

Abbreviation sample_handle := (handle Sample.hash Sample.check Sample.iso).
Abbreviation sample_run := (run Sample.hash Sample.check Sample.iso).

(** The scenario of the specification: alice registers and adds a task,
    which she sees undone and then ticks off; bob registers, sees nothing
    of hers and cannot delete it; alice deletes it and sees an empty list. *)
Example scenario_alice_and_bob :
  let e := Sample.at_ 10 in
  let o1 := sample_handle
              (Req_register POST (Sample.credentials "alice" "secret123"))
              e None empty_db in
  let o2 := sample_handle (Req_add (Sample.titled "Buy milk")) e
              (session_of o1) (db_of o1) in
  let o3 := sample_handle (Req_toggle 1) e (session_of o1) (db_of o2) in
  let o4 := sample_handle
              (Req_register POST (Sample.credentials "bob" "hunter2"))
              e None (db_of o3) in
  let o5 := sample_handle (Req_delete 1) e (session_of o4) (db_of o4) in
  let o6 := sample_handle (Req_delete 1) e (session_of o1) (db_of o5) in
  session_of o1 = Some 1
  /\ response_of o2 = ok_response
  /\ map done (tasks_of_user (db_of o2) 1) = [false]
  /\ map done (tasks_of_user (db_of o3) 1) = [true]
  /\ session_of o4 = Some 2
  /\ tasks_of_user (db_of o4) 2 = []
  /\ response_of o5 = not_found_response
  /\ response_of o6 = ok_response
  /\ tasks_of_user (db_of o6) 1 = [].
Proof. vm_compute. repeat split. Qed.

Example iso_calendar_date_examples :
  iso_calendar_date "2026-01-31" = true
  /\ iso_calendar_date "2024-02-29" = true
  /\ iso_calendar_date "2026-02-29" = false
  /\ iso_calendar_date "2026-01-31T10:00:00Z" = false
  /\ iso_calendar_date "tomorrow" = false.
Proof. vm_compute. repeat split. Qed.

Example strip_examples :
  strip "  alice " = "alice"
  /\ strip "a b" = "a b"
  /\ strip " " = ""
  /\ strip "" = "".
Proof. vm_compute. repeat split. Qed.

(** ** Instances *)

(** C1 as stated fails on the API routes: without a session, [/tasks],
    [/add], [/delete/1] and [/toggle/1] answer with the same redirect to the
    login page as the page route does, status 302, which is not an
    authorization-failure status. *)
Lemma api_routes_redirect_without_session :
  let e := Sample.at_ 50 in
  let answers :=
    map (fun r => response_of (sample_handle r e None Sample.db1))
        [Req_tasks; Req_add (Sample.titled "Buy milk");
         Req_delete 1; Req_toggle 1] in
  answers = [Redirect "login"; Redirect "login";
             Redirect "login"; Redirect "login"]
  /\ forallb authorization_failure answers = false
  /\ status_code (Redirect "login") = 302.
Proof. vm_compute. repeat split. Qed.

Lemma no_session_redirects_to_login_witness :
  session_required Req_tasks = true
  /\ sample_handle Req_tasks (Sample.at_ 50) None Sample.db1
     = (Redirect "login", None, Sample.db1).
Proof.
  split; [reflexivity |].
  apply (no_session_redirects_to_login Sample.hash Sample.check Sample.iso
           Req_tasks (Sample.at_ 50) Sample.db1); reflexivity.
Defined.

Lemma list_owner_scoped_newest_first_witness :
  nondecreasing (clock Sample.day) = true
  /\ map id (tasks_of_user (sample_run empty_db Sample.day) 1) = [2; 1]
  /\ StronglySorted newer (tasks_of_user (sample_run empty_db Sample.day) 1).
Proof.
  split; [reflexivity |]. split; [reflexivity |].
  apply (list_owner_scoped_newest_first Sample.hash Sample.check Sample.iso
           Sample.day 1 (Sample.at_ 50)); reflexivity.
Defined.

Lemma toggle_delete_not_found_witness :
  (forall t, In t (tasks Sample.db1) -> ~ (id t = 2 /\ user_id t = 1))
  /\ sample_handle (Req_toggle 2) (Sample.at_ 50) (Some 1) Sample.db1
     = (not_found_response, Some 1, Sample.db1)
  /\ sample_handle (Req_delete 7) (Sample.at_ 50) (Some 1) Sample.db1
     = (not_found_response, Some 1, Sample.db1).
Proof.
  assert (H : forall tid, (tid =? 1) = false ->
            forall t, In t (tasks Sample.db1) -> ~ (id t = tid /\ user_id t = 1)).
  { intros tid Ht t [<- | [<- | []]] [H1 H2]; simpl in *.
    - subst tid; discriminate.
    - discriminate. }
  split; [apply (H 2); reflexivity |].
  split.
  - apply (toggle_delete_not_found Sample.hash Sample.check Sample.iso
             Sample.db1 1 2 (Sample.at_ 50)), (H 2); reflexivity.
  - apply (toggle_delete_not_found Sample.hash Sample.check Sample.iso
             Sample.db1 1 7 (Sample.at_ 50)), (H 7); reflexivity.
Defined.

Lemma register_then_verify_then_duplicate_witness :
  let f := Sample.credentials " carol " "pa55" in
  typed_username f = "carol"
  /\ typed_password f <> ""
  /\ user_by_username Sample.db1 (typed_username f) = None
  /\ sample_handle (Req_login POST f) (Sample.at_ 60) None
       (db_of (sample_handle (Req_register POST f) (Sample.at_ 50) None
                 Sample.db1))
     = (Redirect "index", Some 3,
        db_of (sample_handle (Req_register POST f) (Sample.at_ 50) None
                 Sample.db1)).
Proof.
  intros f.
  split; [reflexivity |]. split; [discriminate |]. split; [reflexivity |].
  apply (register_then_verify_then_duplicate
           Sample.hash Sample.check Sample.iso sample_check_generate
           Sample.db1 f (Sample.at_ 50) None);
    [discriminate | discriminate | reflexivity].
Defined.

Lemma login_failures_indistinguishable_witness :
  let f1 := Sample.credentials "nobody" "secret123" in
  let f2 := Sample.credentials "alice" "wrong" in
  user_by_username Sample.db1 (typed_username f1) = None
  /\ user_by_username Sample.db1 (typed_username f2) = Some Sample.alice
  /\ check_password Sample.check Sample.alice (typed_password f2) = false
  /\ sample_handle (Req_login POST f1) (Sample.at_ 50) None Sample.db1
     = sample_handle (Req_login POST f2) (Sample.at_ 60) None Sample.db1.
Proof.
  intros f1 f2.
  split; [reflexivity |]. split; [reflexivity |]. split; [reflexivity |].
  apply (login_failures_indistinguishable
           Sample.hash Sample.check Sample.iso
           Sample.db1 f1 f2 (Sample.at_ 50) (Sample.at_ 60) None Sample.alice);
    reflexivity.
Defined.

Lemma toggle_twice_restores_done_witness :
  task_by_id_and_user Sample.db1 1 1 = Some Sample.milk
  /\ task_by_id_and_user
       (db_of (sample_handle (Req_toggle 1) (Sample.at_ 60) (Some 1)
                 (db_of (sample_handle (Req_toggle 1) (Sample.at_ 50) (Some 1)
                           Sample.db1))))
       1 1
     = Some Sample.milk.
Proof.
  split; [reflexivity |].
  apply (toggle_twice_restores_done Sample.hash Sample.check Sample.iso
           Sample.db1 1 1 Sample.milk (Sample.at_ 50) (Sample.at_ 60));
    reflexivity.
Defined.

Lemma add_blank_title_rejected_witness :
  assoc "title" [("title", VStr "   "); ("note", VStr "n")] = Some (VStr "   ")
  /\ strip "   " = ""
  /\ sample_handle
       (Req_add (VDict [("title", VStr "   "); ("note", VStr "n")]))
       (Sample.at_ 50) (Some 1) Sample.db1
     = (Json 400 (VDict [("error", VStr "empty")]), Some 1, Sample.db1).
Proof.
  split; [reflexivity |]. split; [reflexivity |].
  apply (add_blank_title_rejected Sample.hash Sample.check Sample.iso
           Sample.db1 1 (Sample.at_ 50) _ "   "); reflexivity.
Defined.

(** C8 fails on the code: [add] stores whatever non-empty [due_date] the
    body carries.  Sent ["tomorrow"], it answers [{"ok": true}] and the new
    row holds ["tomorrow"], which is no ISO-8601 calendar date. *)
Lemma add_stores_due_date_unchecked :
  let o := sample_handle (Req_add Sample.vague) (Sample.at_ 50) (Some 1)
             Sample.db1 in
  response_of o = ok_response
  /\ tasks (db_of o)
     = (tasks Sample.db1
        ++ [mkTask 3 1 "Call mum" (VStr "tomorrow") VNone false 50])%list
  /\ iso_calendar_date "tomorrow" = false.
Proof. vm_compute. repeat split. Qed.


Lemma whitespace_password_accepted_witness :
  let f := Sample.credentials "carol" " " in
  typed_username f <> ""
  /\ user_by_username Sample.db1 (typed_username f) = None
  /\ typed_password f = " "
  /\ strip (typed_password f) = ""
  /\ sample_handle (Req_login POST f) (Sample.at_ 60) None
       (db_of (sample_handle (Req_register POST f) (Sample.at_ 50) None
                 Sample.db1))
     = (Redirect "index", Some 3,
        db_of (sample_handle (Req_register POST f) (Sample.at_ 50) None
                 Sample.db1)).
Proof.
  intros f.
  split; [discriminate |]. split; [reflexivity |].
  split; [reflexivity |]. split; [reflexivity |].
  apply (whitespace_password_accepted
           Sample.hash Sample.check Sample.iso sample_check_generate
           Sample.db1 f (Sample.at_ 50) None);
    [discriminate | reflexivity | discriminate | reflexivity].
Defined.

(** ** Further instances *)

Abbreviation sample_day := (sample_run empty_db Sample.day).

Example sample_day_tasks :
  map frozen (tasks sample_day)
  = [(1, 1, "Buy milk", VNone, VNone, 20);
     (2, 1, "Walk dog", VNone, VNone, 20);
     (3, 2, "Bake bread", VNone, VNone, 30)]
  /\ map done (tasks sample_day) = [true; false; false].
Proof. vm_compute. split; reflexivity. Qed.

Lemma delete_then_not_found_witness :
  task_by_id_and_user Sample.db1 1 1 = Some Sample.milk
  /\ sample_handle (Req_toggle 1) (Sample.at_ 60) (Some 1)
       (db_of (sample_handle (Req_delete 1) (Sample.at_ 50) (Some 1)
                 Sample.db1))
     = (not_found_response, Some 1,
        db_of (sample_handle (Req_delete 1) (Sample.at_ 50) (Some 1)
                 Sample.db1)).
Proof.
  split; [reflexivity |].
  apply (delete_then_not_found Sample.hash Sample.check Sample.iso
           Sample.db1 1 1 Sample.milk (Sample.at_ 50) (Sample.at_ 60));
    reflexivity.
Defined.

Lemma add_without_title_rejected_witness :
  truthy (VList []) = false
  /\ sample_handle (Req_add (VList [])) (Sample.at_ 50) (Some 1) Sample.db1
     = (Json 400 (VDict [("error", VStr "empty")]), Some 1, Sample.db1).
Proof.
  split; [reflexivity |].
  apply (add_without_title_rejected Sample.hash Sample.check Sample.iso);
    left; reflexivity.
Defined.

Lemma add_ill_typed_fails_witness :
  (truthy (VList [VInt 1]) = true /\ forall d, VList [VInt 1] <> VDict d)
  /\ sample_handle (Req_add (VList [VInt 1])) (Sample.at_ 50) (Some 1)
       Sample.db1
     = (InternalServerError, Some 1, Sample.db1).
Proof.
  assert (H : truthy (VList [VInt 1]) = true
              /\ forall d, VList [VInt 1] <> VDict d)
    by (split; [reflexivity | discriminate]).
  split; [exact H |].
  apply (add_ill_typed_fails Sample.hash Sample.check Sample.iso);
    left; exact H.
Defined.

Lemma register_blank_rejected_witness :
  typed_username (Sample.credentials "   " "pa55") = ""
  /\ sample_handle (Req_register POST (Sample.credentials "   " "pa55"))
       (Sample.at_ 50) None Sample.db1
     = (Render REGISTER_HTML (ctx_error (Some "Enter username and password")),
        None, Sample.db1).
Proof.
  split; [reflexivity |].
  apply (register_blank_rejected Sample.hash Sample.check Sample.iso);
    left; reflexivity.
Defined.

Lemma logout_then_gate_witness :
  session_required Req_tasks = true
  /\ sample_handle Req_tasks (Sample.at_ 60)
       (session_of (sample_handle Req_logout (Sample.at_ 50) (Some 1)
                      Sample.db1))
       (db_of (sample_handle Req_logout (Sample.at_ 50) (Some 1) Sample.db1))
     = (Redirect "login", None, Sample.db1).
Proof.
  split; [reflexivity |].
  apply (logout_then_gate Sample.hash Sample.check Sample.iso
           Req_tasks (Sample.at_ 50) (Sample.at_ 60) (Some 1) Sample.db1);
    reflexivity.
Defined.

Lemma other_users_tasks_untouched_witness :
  Some 1 <> Some 2
  /\ tasks_of_user
       (db_of (sample_handle (Req_delete 1) (Sample.at_ 50) (Some 1)
                 sample_day)) 2
     = tasks_of_user sample_day 2.
Proof.
  split; [discriminate |].
  apply (other_users_tasks_untouched Sample.hash Sample.check Sample.iso
           Sample.day (Req_delete 1) (Sample.at_ 50) (Some 1) 2);
    discriminate.
Defined.

Lemma delete_removes_one_row_witness :
  let t := mkTask 1 1 "Buy milk" VNone VNone true 20 in
  task_by_id_and_user sample_day 1 1 = Some t
  /\ Permutation (tasks sample_day)
       (t :: tasks (db_of (sample_handle (Req_delete 1) (Sample.at_ 50)
                             (Some 1) sample_day))).
Proof.
  intros t; split; [reflexivity |].
  apply (delete_removes_one_row Sample.hash Sample.check Sample.iso
           Sample.day 1 1 t (Sample.at_ 50)); reflexivity.
Defined.

Lemma add_then_listed_first_witness :
  let d := [("title", VStr " Pay rent "); ("due_date", VInt 5)] in
  assoc "title" d = Some (VStr " Pay rent ")
  /\ strip " Pay rent " <> ""
  /\ container (field d "due_date") = false
  /\ container (field d "note") = false
  /\ tasks_of_user
       (db_of (sample_handle (Req_add (VDict d)) (Sample.at_ 50) (Some 1)
                 sample_day)) 1
     = mkTask 4 1 "Pay rent" (VStr "5") VNone false 50
       :: tasks_of_user sample_day 1.
Proof.
  intros d; split; [reflexivity |]. split; [discriminate |].
  split; [reflexivity |]. split; [reflexivity |].
  apply (add_then_listed_first Sample.hash Sample.check Sample.iso
           Sample.day 1 (Sample.at_ 50) d " Pay rent ");
    [reflexivity | discriminate | reflexivity | reflexivity].
Defined.

Lemma register_then_index_witness :
  let f := Sample.credentials " carol " "pa55" in
  typed_username f = "carol"
  /\ typed_password f = "pa55"
  /\ user_by_username sample_day (typed_username f) = None
  /\ response_of
       (sample_handle Req_index (Sample.at_ 60)
          (session_of (sample_handle (Req_register POST f) (Sample.at_ 50)
                         None sample_day))
          (db_of (sample_handle (Req_register POST f) (Sample.at_ 50)
                    None sample_day)))
     = Render APP_HTML
         (ctx_user (Some (mkUser 3 "carol" (Sample.hash "salt" "pa55") 50))).
Proof.
  intros f.
  split; [reflexivity |]. split; [reflexivity |]. split; [reflexivity |].
  rewrite (register_then_index Sample.hash Sample.check Sample.iso
             Sample.day f (Sample.at_ 50) (Sample.at_ 60) None);
    [reflexivity | discriminate | discriminate | reflexivity].
Defined.

Lemma accounts_persist_witness :
  let f := Sample.credentials "alice" "secret123" in
  user_by_username Sample.db1 (typed_username f) = Some Sample.alice
  /\ check_password Sample.check Sample.alice (typed_password f) = true
  /\ response_of
       (sample_handle (Req_login POST f) (Sample.at_ 60) None
          (sample_run Sample.db1 Sample.day))
     = Redirect "index".
Proof.
  intros f.
  split; [reflexivity |]. split; [reflexivity |].
  destruct (accounts_persist Sample.hash Sample.check Sample.iso
              Sample.db1 Sample.day f Sample.alice (Sample.at_ 60) None)
    as [_ H]; [reflexivity | reflexivity |].
  rewrite H; reflexivity.
Defined.

Lemma postgres_rewrite_unused_witness :
  DB_URI (configure Sample.heroku) = "postgres://app@db.example/todo"
  /\ DATABASE_URL (configure Sample.heroku)
     = Some "postgresql://app@db.example/todo"
  /\ SQLALCHEMY_DATABASE_URI (configure Sample.heroku)
     = "postgres://app@db.example/todo".
Proof.
  split; [reflexivity |].
  destruct (postgres_rewrite_unused Sample.heroku) as [_ H].
  destruct (H "app@db.example/todo" eq_refl) as (H1 & H2 & _).
  split; assumption.
Defined.

Example browsers_keep_their_sessions :
  let end_ := browse Sample.hash Sample.check Sample.iso
                no_cookies empty_db Sample.visits in
  fst end_ 0%nat = None
  /\ fst end_ 1%nat = Some 2
  /\ map frozen (tasks (snd end_))
     = [(1, 1, "Buy milk", VNone, VNone, 20);
        (2, 2, "Bake bread", VNone, VNone, 30)].
Proof. vm_compute. repeat split. Qed.

Lemma toggle_flips_one_task_witness :
  let t := mkTask 2 1 "Walk dog" VNone VNone false 20 in
  task_by_id_and_user sample_day 2 1 = Some t
  /\ map done
       (tasks_of_user
          (db_of (sample_handle (Req_toggle 2) (Sample.at_ 50) (Some 1)
                    sample_day)) 1)
     = [true; true].
Proof.
  intros t; split; [reflexivity |].
  rewrite (toggle_flips_one_task Sample.hash Sample.check Sample.iso
             Sample.day 1 2 t (Sample.at_ 50)); reflexivity.
Defined.
